(** * Lumine: the Streamlit recipe application (Streamlit.py)

    A shallow embedding of the logic of [Streamlit.py]: the six wrappers
    around TheMealDB, the ingredient normaliser, the two chat back ends and
    the three interactive tabs that read or write the session state.

    Python values are embedded as the type [value] (what [json.loads]
    can produce); a Python function that can raise returns an [outcome];
    a function that also touches Streamlit or the network lives in the
    monad [M], which threads the session state, the widgets written to the
    page and the calls made to the outside world, and which keeps the state
    reached when an exception is raised. *)

From Stdlib Require Import String Ascii List ZArith Lia Bool Arith.
From Stdlib Require Import DecimalString.
From Stdlib Require Import Floats.SpecFloat.
Import ListNotations.
Open Scope string_scope.

(** ** Python values *)

(** The values [response.json()] returns, which are also the values the
    application passes around.  A dict is the list of its items in insertion
    order; a key is looked up at its first binding (a dict has one). *)
#[warnings="-register-all"]
Inductive value : Type :=
| VNone
| VBool (b : bool)
| VInt (z : Z)
| VFloat (f : spec_float)
| VStr (s : string)
| VList (items : list value)
| VDict (items : list (string * value)).

(** The exception classes the code can meet.  [LibraryError] stands for any
    other subclass of [Exception] raised by [requests], [ollama] or
    [langchain]; its argument is the library's message. *)
Inductive exn : Type :=
| ValueError
| KeyError
| IndexError
| TypeError
| AttributeError
| LibraryError (msg : string).

Inductive outcome (A : Type) : Type :=
| Ok (a : A)
| Raise (e : exn).
Arguments Ok {A} a.
Arguments Raise {A} e.

Definition obind {A B : Type} (o : outcome A) (k : A -> outcome B) : outcome B :=
  match o with
  | Ok a => k a
  | Raise e => Raise e
  end.

Notation "'let?' x ':=' o 'in' k" := (obind o (fun x => k))
  (at level 10, x pattern, o at level 100, k at level 200).

Fixpoint omap {A B : Type} (f : A -> outcome B) (l : list A) : outcome (list B) :=
  match l with
  | [] => Ok []
  | a :: rest =>
      let? b := f a in
      let? bs := omap f rest in
      Ok (b :: bs)
  end.

(** [bool(v)] *)
Definition truthy (v : value) : bool :=
  match v with
  | VNone => false
  | VBool b => b
  | VInt z => negb (z =? 0)%Z
  | VFloat (S754_zero _) => false
  | VFloat _ => true
  | VStr s => negb (s =? "")
  | VList items => match items with [] => false | _ => true end
  | VDict items => match items with [] => false | _ => true end
  end.

Fixpoint dict_lookup (key : string) (items : list (string * value)) : option value :=
  match items with
  | [] => None
  | (k, v) :: rest => if k =? key then Some v else dict_lookup key rest
  end.

(** [v[key]] for a string [key] *)
Definition getitem (v : value) (key : string) : outcome value :=
  match v with
  | VDict items =>
      match dict_lookup key items with
      | Some x => Ok x
      | None => Raise KeyError
      end
  | _ => Raise TypeError
  end.

(** A [str] is kept as its UTF-8 encoding: a character is a leading byte
    and the continuation bytes (of the form 10xxxxxx) that follow it. *)
Definition continuation (c : ascii) : bool :=
  match c with
  | Ascii _ _ _ _ _ _ b6 b7 => b7 && negb b6
  end.

(** The characters of [s], after the bytes [current] already read of the
    first one. *)
Fixpoint characters (s : string) (current : string) : list string :=
  match s with
  | EmptyString =>
      match current with
      | EmptyString => []
      | _ => [current]
      end
  | String c rest =>
      if continuation c then characters rest (current ++ String c "")
      else
        match current with
        | EmptyString => characters rest (String c "")
        | _ => current :: characters rest (String c "")
        end
  end.

(** [v[0]]; the keys of a dict are strings, so [0] is never one of them *)
Definition getitem0 (v : value) : outcome value :=
  match v with
  | VList items =>
      match items with
      | x :: _ => Ok x
      | [] => Raise IndexError
      end
  | VStr s =>
      match characters s "" with
      | c :: _ => Ok (VStr c)
      | [] => Raise IndexError
      end
  | VDict _ => Raise KeyError
  | _ => Raise TypeError
  end.

(** [v.get(key)] *)
Definition py_get (v : value) (key : string) : outcome value :=
  match v with
  | VDict items =>
      match dict_lookup key items with
      | Some x => Ok x
      | None => Ok VNone
      end
  | _ => Raise AttributeError
  end.

(** The characters of [s], as values *)
Definition chars (s : string) : list value :=
  map VStr (characters s "").

(** The elements [for x in v] goes through *)
Definition py_iter (v : value) : outcome (list value) :=
  match v with
  | VList items => Ok items
  | VStr s => Ok (chars s)
  | VDict items => Ok (map (fun kv => VStr (fst kv)) items)
  | _ => Raise TypeError
  end.

(** [v == s] and [v != s] for a string [s] *)
Definition value_eq_str (v : value) (s : string) : bool :=
  match v with
  | VStr t => t =? s
  | _ => false
  end.

(** [v in names] for a list of strings [names] *)
Definition value_in (v : value) (names : list string) : bool :=
  existsb (value_eq_str v) names.

(** [name in values] for a string [name] *)
Definition str_in (name : string) (values : list value) : bool :=
  existsb (fun v => value_eq_str v name) values.

(** [[x] + v] *)
Definition list_concat (l : list value) (v : value) : outcome (list value) :=
  match v with
  | VList items => Ok (l ++ items)%list
  | _ => Raise TypeError
  end.

Definition string_of_nat (n : nat) : string :=
  NilEmpty.string_of_uint (Nat.to_uint n).

Definition string_of_Z (z : Z) : string :=
  NilEmpty.string_of_int (Z.to_int z).

(** The line feed *)
Definition newline : string := String (ascii_of_nat 10) "".

(** ** The outside world *)

(** What [requests.get] returns: [json] is [None] when the body is not
    valid JSON, in which case [response.json()] raises a [ValueError]. *)
Record Response : Type := mkResponse {
  status_code : Z;
  json : option value;
  text : string
}.

Definition response_json (r : Response) : outcome value :=
  match json r with
  | Some v => Ok v
  | None => Raise ValueError
  end.

(** The libraries the application calls and the interpreter's [str()],
    which f-strings apply to the values they interpolate.  During a run a
    library answers the same call in the same way. *)
Record Host : Type := mkHost {
  requests_get : string -> outcome Response;
  ollama_generate : string -> string -> outcome value;
  Ollama : string -> outcome unit;
  llm_invoke : string -> string -> outcome value;
  py_str : value -> string;
  exn_str : exn -> string
}.

(** ** Session state and the page *)

(** [st.session_state]: a key that was never set is [None] here. *)
Record Session : Type := mkSession {
  best_recipe : option value;
  history : option (list string);
  user_input : option string
}.

Inductive UiEvent : Type :=
| UiTitle (s : string)
| UiMarkdown (s : string)
| UiWrite (s : string)
| UiWriteFrame (rows : list string)
| UiText (s : string)
| UiError (s : string)
| UiSuccess (s : string).

Inductive Call : Type :=
| HttpGet (url : string)
| OllamaGenerate (model prompt : string)
| OllamaNew (model : string)
| LlmInvoke (model prompt : string).

Record State : Type := mkState {
  session : Session;
  ui : list UiEvent;
  calls : list Call
}.

Definition start (s : Session) : State := mkState s [] [].

(** ** The monad of one script run *)

Definition M (A : Type) : Type := State -> outcome A * State.

Definition ret {A : Type} (a : A) : M A := fun st => (Ok a, st).

Definition raise {A : Type} (e : exn) : M A := fun st => (Raise e, st).

Definition bind {A B : Type} (m : M A) (k : A -> M B) : M B :=
  fun st =>
    match m st with
    | (Ok a, st') => k a st'
    | (Raise e, st') => (Raise e, st')
    end.

Definition lift {A : Type} (o : outcome A) : M A := fun st => (o, st).

(** [try: body / except ...: handler e]; a handler re-raises what its
    clause does not name. *)
Definition try_except {A : Type} (body : M A) (handler : exn -> M A) : M A :=
  fun st =>
    match body st with
    | (Ok a, st') => (Ok a, st')
    | (Raise e, st') => handler e st'
    end.

Notation "x <- m ;; k" := (bind m (fun x => k))
  (at level 61, m at next level, right associativity).
Notation "m ;; k" := (bind m (fun _ => k))
  (at level 61, right associativity).

Definition emit (e : UiEvent) : M unit :=
  fun st => (Ok tt, mkState (session st) (ui st ++ [e])%list (calls st)).

Definition record_call (c : Call) : M unit :=
  fun st => (Ok tt, mkState (session st) (ui st) (calls st ++ [c])%list).

Definition get_session : M Session := fun st => (Ok (session st), st).

Definition put_session (s : Session) : M unit :=
  fun st => (Ok tt, mkState s (ui st) (calls st)).

Definition st_title s := emit (UiTitle s).
Definition st_markdown s := emit (UiMarkdown s).
Definition st_write s := emit (UiWrite s).
Definition st_text s := emit (UiText s).
Definition st_error s := emit (UiError s).
Definition st_success s := emit (UiSuccess s).

(** [st.session_state['best_recipe'] = v] *)
Definition set_best_recipe (v : value) : M unit :=
  s <- get_session ;;
  put_session (mkSession (Some v) (history s) (user_input s)).

(** [st.session_state.history = h] *)
Definition set_history (h : list string) : M unit :=
  s <- get_session ;;
  put_session (mkSession (best_recipe s) (Some h) (user_input s)).

(** [st.session_state.history.append(line)] *)
Definition history_append (line : string) : M unit :=
  s <- get_session ;;
  match history s with
  | Some h => put_session (mkSession (best_recipe s) (Some (h ++ [line])%list) (user_input s))
  | None => raise AttributeError
  end.

(** [st.session_state.user_input = u] *)
Definition set_user_input (u : string) : M unit :=
  s <- get_session ;;
  put_session (mkSession (best_recipe s) (history s) (Some u)).


(** ** The functions of Streamlit.py *)

Section Program.

Variable H : Host.

(** [requests.get(url)] *)
Definition http_get (url : string) : M Response :=
  record_call (HttpGet url) ;;
  lift (requests_get H url).

Definition api : string := "https://www.themealdb.com/api/json/v1/1/".

Definition decode_error : string := "Error decoding JSON response".

Definition status_error (response : Response) : string :=
  "API request failed with status code " ++ string_of_Z (status_code response).

(** The chat back end on gemma:2b; [except Exception] catches every [exn]. *)
Definition generate_response_gemma (prompt : string) : M value :=
  try_except
    (record_call (OllamaGenerate "gemma:2b" prompt) ;;
     response <- lift (ollama_generate H "gemma:2b" prompt) ;;
     lift (getitem response "response"))
    (fun e => ret (VStr ("An error occurred: " ++ exn_str H e))).

(** The chat back end on llama2, through langchain. *)
Definition generate_response_llama (prompt : string) : M value :=
  try_except
    (record_call (OllamaNew "llama2") ;;
     lift (Ollama H "llama2") ;;
     record_call (LlmInvoke "llama2" prompt) ;;
     lift (llm_invoke H "llama2" prompt))
    (fun e => ret (VStr ("An error occurred: " ++ exn_str H e))).

Definition fetch_ingredient_list : M value :=
  response <- http_get (api ++ "list.php?i=list") ;;
  if (status_code response =? 200)%Z then
    try_except
      (body <- lift (response_json response) ;;
       lift (getitem body "meals"))
      (fun e =>
         match e with
         | ValueError => st_error decode_error ;; ret VNone
         | _ => raise e
         end)
  else
    st_error (status_error response) ;; ret VNone.

Definition fetch_category_list : M value :=
  response <- http_get (api ++ "categories.php") ;;
  if (status_code response =? 200)%Z then
    try_except
      (body <- lift (response_json response) ;;
       categories <- lift (getitem body "categories") ;;
       items <- lift (py_iter categories) ;;
       names <- lift (omap (fun category => getitem category "strCategory") items) ;;
       ret (VList names))
      (fun e =>
         match e with
         | ValueError => st_error decode_error ;; ret VNone
         | _ => raise e
         end)
  else
    st_error (status_error response) ;; ret VNone.

Definition fetch_area_list : M value :=
  response <- http_get (api ++ "list.php?a=list") ;;
  if (status_code response =? 200)%Z then
    try_except
      (body <- lift (response_json response) ;;
       meals <- lift (getitem body "meals") ;;
       items <- lift (py_iter meals) ;;
       names <- lift (omap (fun area => getitem area "strArea") items) ;;
       ret (VList names))
      (fun e =>
         match e with
         | ValueError => st_error decode_error ;; ret VNone
         | _ => raise e
         end)
  else
    st_error (status_error response) ;; ret VNone.

(** The [for ingredient in ingredients] loop of
    [search_recipes_by_ingredients], [results] being the list built so far.
    The [try] block yields the extended list, its [except] clause [None]
    for the [return None] it ends in. *)
Fixpoint search_loop (ingredients : list string) (results : list value) : M value :=
  match ingredients with
  | [] => ret (VList results)
  | ingredient :: rest =>
      response <- http_get (api ++ "filter.php?i=" ++ ingredient) ;;
      if (status_code response =? 200)%Z then
        step <- try_except
          (json_response <- lift (response_json response) ;;
           meals <- lift (getitem json_response "meals") ;;
           if truthy meals then
             items <- lift (py_iter meals) ;;
             ret (Some (results ++ items)%list)
           else ret (Some results))
          (fun e =>
             match e with
             | ValueError =>
                 st_error decode_error ;;
                 st_text (text response) ;;
                 ret None
             | _ => raise e
             end) ;;
        match step with
        | Some results' => search_loop rest results'
        | None => ret VNone
        end
      else
        st_error (status_error response) ;;
        st_text (text response) ;;
        ret VNone
  end.

Definition search_recipes_by_ingredients (ingredients : list string) : M value :=
  search_loop ingredients [].

Definition search_recipes_by_category_and_area (category area : value) : M value :=
  response <- http_get (api ++ "filter.php?c=" ++ py_str H category
                            ++ "&a=" ++ py_str H area) ;;
  if (status_code response =? 200)%Z then
    try_except
      (body <- lift (response_json response) ;;
       lift (getitem body "meals"))
      (fun e =>
         match e with
         | ValueError => st_error decode_error ;; ret VNone
         | _ => raise e
         end)
  else
    st_error (status_error response) ;; ret VNone.

(** An uploaded sheet that [pd.read_excel] reads and that has a column
    'Product Name', kept as that column.  A file that cannot be read and a
    sheet without the column make the tab raise before it sends any
    request; they are not among the inputs here. *)
Definition DataFrame : Type := list string.

Definition load_items (file_path : DataFrame) : DataFrame := file_path.

(** [Series.unique()]: the values in order of first appearance. *)
Fixpoint unique (names : list string) : list string :=
  match names with
  | [] => []
  | name :: rest => name :: filter (fun other => negb (other =? name)) (unique rest)
  end.

Definition normalize_ingredients (product_names : list string) (recognized_ingredients : value)
  : outcome (list string * list string) :=
  let? items := py_iter recognized_ingredients in
  let? recognized_ingredient_names :=
    omap (fun ingredient => getitem ingredient "strIngredient") items in
  let normalized_names :=
    filter (fun name => str_in name recognized_ingredient_names) product_names in
  let not_recognized_names :=
    filter (fun name => negb (str_in name recognized_ingredient_names)) product_names in
  Ok (normalized_names, not_recognized_names).

Definition get_recipe_details (recipe_id : value) : M value :=
  response <- http_get (api ++ "lookup.php?i=" ++ py_str H recipe_id) ;;
  if (status_code response =? 200)%Z then
    try_except
      (body <- lift (response_json response) ;;
       meals <- lift (getitem body "meals") ;;
       lift (getitem0 meals))
      (fun e =>
         match e with
         | ValueError | KeyError => st_error decode_error ;; ret VNone
         | _ => raise e
         end)
  else
    st_error (status_error response) ;; ret VNone.

(** *** The chat tab *)

Definition chef_options : list value := [VStr "Chef De-Code"; VStr "Chef App-etizer"].

(** [st.selectbox(label, options)]: the option the user picked. *)
Definition selectbox (options : list value) (picked : nat) : value :=
  nth picked options (hd VNone options).

(** The triple-quoted text, with the line feeds and the indentation it
    has in the source. *)
Definition chatbot_intro : string :=
  newline ++ "    This AI Chatbot is your kitchen sidekick! From researching recipes to detailed step-by-step instructions, it's got you covered. Want to explore wild food combos? Just ask! Boost your culinary game with tips on ingredients, techniques, and more. Get ready to cook up some fun! 🍳👩‍🍳🔪" ++ newline ++ "    ".

(** The loop that displays the conversation *)
Fixpoint show_history (messages : list string) : M unit :=
  match messages with
  | [] => ret tt
  | message :: rest =>
      (if prefix "Aspiring Chef:" message then st_write message
       else if prefix "Culinary Luminary:" message then st_success message
       else ret tt) ;;
      show_history rest
  end.

(** One run of the chat tab: [picked] is the chef chosen in the select box,
    [typed] the content of the text field, [pressed] whether "Let's Cook"
    was clicked.  The [on_change] callback of the text field runs before
    the script does; what it leaves under [user_input] is part of the
    session the run starts from. *)
Definition chatbot_tab (picked : nat) (typed : string) (pressed : bool) : M unit :=
  st_title "Lumine AI ChatBot" ;;
  st_markdown chatbot_intro ;;
  s <- get_session ;;
  match history s with None => set_history [] | Some _ => ret tt end ;;
  s <- get_session ;;
  match user_input s with None => set_user_input "" | Some _ => ret tt end ;;
  let model_choice := selectbox chef_options picked in
  let user_input := typed in
  (if pressed then
     if negb (user_input =? "") then
       set_history [] ;;
       history_append ("Aspiring Chef: " ++ user_input) ;;
       bot_response <-
         (if value_eq_str model_choice "gemma:2b"
          then generate_response_gemma user_input
          else generate_response_llama user_input) ;;
       history_append ("Culinary Luminary: " ++ py_str H bot_response) ;;
       set_user_input ""
     else ret tt
   else ret tt) ;;
  s <- get_session ;;
  match history s with
  | Some messages => show_history messages
  | None => raise AttributeError
  end.

(** *** The upload tab *)

(** [range(1, 21)] *)
Definition ingredient_slots : list nat := seq 1 20.

(** [sum(1 for i in slots if recipe_details.get(f'strIngredient{i}') in normalized_names)] *)
Fixpoint count_matches (recipe_details : value) (normalized_names : list string)
  (slots : list nat) : outcome nat :=
  match slots with
  | [] => Ok 0
  | i :: rest =>
      let? ingredient := py_get recipe_details ("strIngredient" ++ string_of_nat i) in
      let? n := count_matches recipe_details normalized_names rest in
      Ok ((if value_in ingredient normalized_names then 1 else 0) + n)
  end.

Definition match_count (recipe_details : value) (normalized_names : list string) : outcome nat :=
  count_matches recipe_details normalized_names ingredient_slots.

(** The [for recipe in recipes] loop of the upload tab, entered with the
    current [best_recipe] and [best_match_count]. *)
Fixpoint best_match_loop (recipes : list value) (normalized_names : list string)
  (best_recipe : value) (best_match_count : nat) : M (value * nat) :=
  match recipes with
  | [] => ret (best_recipe, best_match_count)
  | recipe :: rest =>
      recipe_id <- lift (getitem recipe "idMeal") ;;
      recipe_details <- get_recipe_details recipe_id ;;
      if truthy recipe_details then
        count <- lift (match_count recipe_details normalized_names) ;;
        if (best_match_count <? count)%nat
        then best_match_loop rest normalized_names recipe_details count
        else best_match_loop rest normalized_names best_recipe best_match_count
      else best_match_loop rest normalized_names best_recipe best_match_count
  end.

Definition no_match_message : string :=
  "Oops! No recipes found with those ingredients. Time to get creative or try a different combo!".

Definition unlocked_message : string :=
  "Recipes unlocked! Head to the 'Recipe Generator' tab for the perfect match.".

(** Lines 233-252 of [upload_products_tab]: what is done with the result
    [recipes] of the search. *)
Definition select_best_match (recipes : value) (normalized_names : list string) : M unit :=
  if truthy recipes then
    st_success unlocked_message ;;
    candidates <- lift (py_iter recipes) ;;
    found <- best_match_loop candidates normalized_names VNone 0 ;;
    let best_recipe := fst found in
    if truthy best_recipe then set_best_recipe best_recipe
    else st_write no_match_message
  else
    st_write "No recipes found. Time to get creative in the kitchen!".

(** The triple-quoted text, with the line feeds and the indentation it
    has in the source. *)
Definition upload_intro : string :=
  newline ++ "    Simply upload your Excel file with the column 'Product Name' populated with all your bargain buys. Let's celebrate those smart shopping successes together! Minimize waste, maximize savings!" ++ newline ++ "    ".

(** One run of the upload tab: [uploaded_file] is the sheet in the uploader
    (if any), [pressed] whether "Let's Spice Things Up" was clicked. *)
Definition upload_products_tab (uploaded_file : option DataFrame) (pressed : bool) : M unit :=
  st_title "Ready to showcase your discounted products?" ;;
  st_write upload_intro ;;
  match uploaded_file with
  | None => ret tt
  | Some file =>
      let df := load_items file in
      st_write "### Your Purchased Discounted Products" ;;
      emit (UiWriteFrame df) ;;
      let product_names := unique df in
      recognized_ingredients <- fetch_ingredient_list ;;
      if truthy recognized_ingredients then
        names <- lift (normalize_ingredients product_names recognized_ingredients) ;;
        let normalized_names := fst names in
        if pressed then
          recipes <- search_recipes_by_ingredients normalized_names ;;
          select_best_match recipes normalized_names
        else ret tt
      else ret tt
  end.

(** *** The filter tab *)

(** Lines 276-284 of [select_filters_tab]: what is done with the result
    [recipes] of the search. *)
Definition select_first (recipes : value) : M unit :=
  if truthy recipes then
    st_success unlocked_message ;;
    best_recipe <- (if truthy recipes then lift (getitem0 recipes) else ret VNone) ;;
    if truthy best_recipe then
      recipe_id <- lift (getitem best_recipe "idMeal") ;;
      recipe_details <- get_recipe_details recipe_id ;;
      set_best_recipe recipe_details
    else ret tt
  else
    st_write no_match_message.

(** The triple-quoted text, with the line feeds and the indentation it
    has in the source. *)
Definition filters_intro : string :=
  newline ++ "    Let's roll the dice and spice up your day with a randomly delicious dish! Choose your food category and area to surprise your taste buds today!" ++ newline ++ "    ".

(** One run of the filter tab: the positions picked in the two select boxes
    and whether "Let's Spice Things Up" was clicked. *)
Definition select_filters_tab (picked_category picked_area : nat) (pressed : bool) : M unit :=
  st_title "Feeling indecisive about your culinary cravings?" ;;
  st_write filters_intro ;;
  categories <- fetch_category_list ;;
  areas <- fetch_area_list ;;
  category_options <- lift (list_concat [VStr "All"] categories) ;;
  let selected_category := selectbox category_options picked_category in
  area_options <- lift (list_concat [VStr "All"] areas) ;;
  let selected_area := selectbox area_options picked_area in
  if pressed then
    if negb (value_eq_str selected_category "All") || negb (value_eq_str selected_area "All") then
      recipes <- search_recipes_by_category_and_area selected_category selected_area ;;
      select_first recipes
    else
      st_error "Pick a Food Category or Area for Recommendations."
  else ret tt.

End Program.

(** *** The recipe page *)

(** Where a widget is written: the body of the page, or one of the columns
    [st.columns] made. *)
Inductive Container : Type :=
| Body
| Column (i : nat).

(** The widgets of the recipe page, each with the argument it is given. *)
Inductive Widget : Type :=
| WTitle (body : value)
| WColumns (spec : list value)
| WImage (image : value) (width : Z)
| WWrite (body : value)
| WMarkdown (body : string).

Definition Placed : Type := (Container * Widget)%type.

(** A function that only writes widgets and may raise. *)
Definition Render (A : Type) : Type := list Placed -> outcome A * list Placed.

Definition rret {A : Type} (a : A) : Render A := fun page => (Ok a, page).

Definition rbind {A B : Type} (m : Render A) (k : A -> Render B) : Render B :=
  fun page =>
    match m page with
    | (Ok a, page') => k a page'
    | (Raise e, page') => (Raise e, page')
    end.

Definition rlift {A : Type} (o : outcome A) : Render A := fun page => (o, page).

Definition place (c : Container) (w : Widget) : Render unit :=
  fun page => (Ok tt, (page ++ [(c, w)])%list).

Notation "x <~ m ;; k" := (rbind m (fun x => k))
  (at level 61, m at next level, right associativity).

(** [v.get(key, default)] *)
Definition py_get_default (v : value) (key : string) (default : value) : outcome value :=
  match v with
  | VDict items =>
      match dict_lookup key items with
      | Some x => Ok x
      | None => Ok default
      end
  | _ => Raise AttributeError
  end.

(** The float [0.5] *)
Definition half : spec_float := S754_finite false 1 (-1).

Section RecipePage.

Variable H : Host.

(** The [for i in range(1, 21)] loop of [recipe_page], [ingredients] being
    the lines appended so far. *)
Fixpoint ingredient_lines (best_recipe : value) (slots : list nat) (ingredients : list string)
  : outcome (list string) :=
  match slots with
  | [] => Ok ingredients
  | i :: rest =>
      let? ingredient := py_get best_recipe ("strIngredient" ++ string_of_nat i) in
      let? measure := py_get best_recipe ("strMeasure" ++ string_of_nat i) in
      if truthy ingredient && truthy measure
      then ingredient_lines best_recipe rest
             (ingredients ++ [(py_str H measure ++ " " ++ py_str H ingredient)%string])%list
      else ingredient_lines best_recipe rest ingredients
  end.

Definition no_recipe_message : string :=
  "No recipe selected! Head back to the Home tab for some culinary inspiration.".

(** Streamlit's [st.image], which raises on a value it cannot read as a
    picture (on [None], an [AttributeError]). *)
Variable st_image : value -> Z -> outcome unit.

(** [st.image(image, width=width)] in the container [c] *)
Definition show_image (c : Container) (image : value) (width : Z) : Render unit :=
  _ <~ rlift (st_image image width) ;;
  place c (WImage image width).

(** One run of the recipe page on the session [s]. *)
Definition recipe_page (s : Session) : Render unit :=
  let best_recipe := match best_recipe s with Some v => v | None => VNone end in
  if truthy best_recipe then
    title <~ rlift (getitem best_recipe "strMeal") ;;
    _ <~ place Body (WTitle title) ;;
    _ <~ place Body (WColumns [VInt 1; VFloat half]) ;;
    image <~ rlift (getitem best_recipe "strMealThumb") ;;
    _ <~ show_image (Column 1) image 450 ;;
    _ <~ place (Column 2) (WWrite (VStr "### Ingredients")) ;;
    ingredients <~ rlift (ingredient_lines best_recipe ingredient_slots []) ;;
    _ <~ place (Column 2)
           (WMarkdown (String.concat newline
                         (map (fun ingredient => "- " ++ ingredient) ingredients))) ;;
    _ <~ place Body (WWrite (VStr "### Instructions")) ;;
    instructions <~ rlift (getitem best_recipe "strInstructions") ;;
    _ <~ place Body (WWrite instructions) ;;
    _ <~ place Body (WWrite (VStr "### Source")) ;;
    shown <~ rlift (py_get_default best_recipe "strSource" (VStr "No link available")) ;;
    target <~ rlift (py_get_default best_recipe "strSource" (VStr "#")) ;;
    place Body (WWrite (VStr ("[" ++ py_str H shown ++ "](" ++ py_str H target ++ ")")))
  else
    place Body (WWrite (VStr no_recipe_message)).

End RecipePage.

(** ** A small world to run the program in *)

(** [str()] on the values the examples interpolate: strings, integers,
    [None] and booleans. *)
Definition demo_str (v : value) : string :=
  match v with
  | VStr s => s
  | VInt z => string_of_Z z
  | VNone => "None"
  | VBool true => "True"
  | VBool false => "False"
  | _ => ""
  end.

Definition demo_exn_str (e : exn) : string :=
  match e with
  | LibraryError msg => msg
  | _ => ""
  end.

Definition not_found : Response := mkResponse 404 None "Not Found".

Fixpoint serve (pages : list (string * Response)) (url : string) : outcome Response :=
  match pages with
  | [] => Ok not_found
  | (u, r) :: rest => if u =? url then Ok r else serve rest url
  end.

(** A host that serves [pages], has no model server running and whose
    langchain wrapper echoes the prompt. *)
Definition demo_host (pages : list (string * Response)) : Host :=
  mkHost (serve pages)
         (fun _ _ => Raise (LibraryError "connection refused"))
         (fun _ => Ok tt)
         (fun _ prompt => Ok (VStr ("echo " ++ prompt)))
         demo_str
         demo_exn_str.

Definition ok_json (v : value) : Response := mkResponse 200 (Some v) "".

Definition meals (v : value) : value := VDict [("meals", v)].

Definition chicken_soup : value :=
  VDict [("idMeal", VStr "2"); ("strMeal", VStr "Chicken Soup");
         ("strIngredient1", VStr "Chicken"); ("strIngredient2", VStr "Salt")].

Definition salted_chicken : value :=
  VDict [("idMeal", VStr "3"); ("strMeal", VStr "Salted Chicken");
         ("strIngredient1", VStr "Salt"); ("strIngredient2", VStr "Chicken")].

Definition plain_rice : value :=
  VDict [("idMeal", VStr "4"); ("strMeal", VStr "Plain Rice");
         ("strIngredient1", VStr "Rice")].

Definition boiled_egg : value :=
  VDict [("idMeal", VStr "6"); ("strMeal", VStr "Boiled Egg");
         ("strIngredient1", VStr "Egg")].

Definition stub (id name : string) : value :=
  VDict [("strMeal", VStr name); ("strMealThumb", VStr ""); ("idMeal", VStr id)].

(** A catalogue with one recognised ingredient, Chicken, found in the
    recipes 1 (whose lookup fails with status 500), 2 and 3. *)
Definition kitchen_pages : list (string * Response) :=
  [ (api ++ "list.php?i=list",
     ok_json (meals (VList [VDict [("strIngredient", VStr "Chicken")];
                            VDict [("strIngredient", VStr "Salt")]])));
    (api ++ "categories.php",
     ok_json (VDict [("categories", VList [VDict [("strCategory", VStr "Soup")]])]));
    (api ++ "list.php?a=list",
     ok_json (meals (VList [VDict [("strArea", VStr "French")]])));
    (api ++ "filter.php?i=Chicken",
     ok_json (meals (VList [stub "1" "Broth"; stub "2" "Chicken Soup"; stub "3" "Salted Chicken"])));
    (api ++ "filter.php?c=Soup&a=All",
     ok_json (meals (VList [stub "1" "Broth"; stub "2" "Chicken Soup"])));
    (api ++ "filter.php?c=All&a=French",
     ok_json (meals (VList [stub "2" "Chicken Soup"; stub "1" "Broth"])));
    (api ++ "lookup.php?i=1", mkResponse 500 None "Internal Server Error");
    (api ++ "lookup.php?i=2", ok_json (meals (VList [chicken_soup])));
    (api ++ "lookup.php?i=3", ok_json (meals (VList [salted_chicken])));
    (api ++ "lookup.php?i=4", ok_json (meals (VList [plain_rice])));
    (api ++ "lookup.php?i=5", ok_json (meals (VList [])));
    (api ++ "lookup.php?i=6", ok_json (meals (VList [boiled_egg]))) ].

Definition kitchen : Host := demo_host kitchen_pages.

Definition empty_session : Session := mkSession None None None.

Definition session_with (recipe : value) : Session := mkSession (Some recipe) None None.

(** A session in which a conversation took place. *)
Definition chatted : Session :=
  mkSession None (Some ["Aspiring Chef: Any soup?"; "Culinary Luminary: Try broth."]) (Some "").

(** A host for which every page is missing. *)
Definition offline : Host := demo_host [].

(** A host whose every answer is the JSON object without any key. *)
Definition keyless : Host :=
  mkHost (fun _ => Ok (ok_json (VDict [])))
         (fun _ _ => Raise (LibraryError "connection refused"))
         (fun _ => Raise (LibraryError "no such model"))
         (fun _ prompt => Ok (VStr prompt))
         demo_str
         demo_exn_str.

(** A host whose every answer has status 200 and a body that is not JSON. *)
Definition garbled : Host :=
  mkHost (fun _ => Ok (mkResponse 200 None "<html>Down for maintenance</html>"))
         (fun _ _ => Raise (LibraryError "connection refused"))
         (fun _ => Ok tt)
         (fun _ prompt => Ok (VStr prompt))
         demo_str
         demo_exn_str.

(** A catalogue in which recipe 3 is found both for Chicken and for Salt,
    and nothing for Rice. *)
Definition pantry_pages : list (string * Response) :=
  [ (api ++ "filter.php?i=Chicken",
     ok_json (meals (VList [stub "2" "Chicken Soup"; stub "3" "Salted Chicken"])));
    (api ++ "filter.php?i=Rice", ok_json (meals VNone));
    (api ++ "filter.php?i=Salt", ok_json (meals (VList [stub "3" "Salted Chicken"]))) ].

Definition pantry : Host := demo_host pantry_pages.

(** [st.image] on the values of the examples: a string is the address of
    a picture, any other value is not one. *)
Definition demo_image (image : value) (width : Z) : outcome unit :=
  match image with
  | VStr _ => Ok tt
  | _ => Raise AttributeError
  end.

(** A recipe whose picture is [null]. *)
Definition gruel : value :=
  VDict [("idMeal", VStr "8"); ("strMeal", VStr "Gruel"); ("strMealThumb", VNone);
         ("strInstructions", VStr "Boil.")].

(** A recipe as the catalogue gives them: unused slots are empty strings
    or [null], and so is the source. *)
Definition pancakes : value :=
  VDict [("idMeal", VStr "7"); ("strMeal", VStr "Pancakes");
         ("strMealThumb", VStr "https://example.org/pancakes.jpg");
         ("strInstructions", VStr "Mix and fry.");
         ("strIngredient1", VStr "Flour"); ("strMeasure1", VStr "100g");
         ("strIngredient2", VStr "Milk"); ("strMeasure2", VStr "");
         ("strIngredient3", VStr ""); ("strMeasure3", VStr " ");
         ("strIngredient4", VNone); ("strMeasure4", VNone);
         ("strIngredient5", VStr "Egg"); ("strMeasure5", VStr "1");
         ("strSource", VNone)].

(** A catalogue with one category and one area, and no recipe for them. *)
Definition larder_pages : list (string * Response) :=
  [ (api ++ "categories.php",
     ok_json (VDict [("categories", VList [VDict [("strCategory", VStr "Soup")]])]));
    (api ++ "list.php?a=list",
     ok_json (meals (VList [VDict [("strArea", VStr "French")]])));
    (api ++ "filter.php?c=Soup&a=French", ok_json (meals VNone)) ].

Definition larder : Host := demo_host larder_pages.

(** ** Notions used in the statements *)

(** [st] after the widgets [evs] were written and the calls [cs] made. *)
Definition extend (st : State) (evs : list UiEvent) (cs : list Call) : State :=
  mkState (session st) (ui st ++ evs)%list (calls st ++ cs)%list.

(** [m] only writes to the page and calls the outside: from any state it
    gives [r], having written [evs] and called [cs]. *)
Definition logs {A : Type} (m : M A) (r : outcome A) (evs : list UiEvent) (cs : list Call) : Prop :=
  forall st, m st = (r, extend st evs cs).

Definition logger {A : Type} (m : M A) : Prop :=
  exists r evs cs, logs m r evs cs.

(** [m] leaves [st.session_state] as it found it. *)
Definition preserves {A : Type} (m : M A) : Prop :=
  forall st, session (snd (m st)) = session st.

(** What [m] returns or raises, for an [m] that does not read the state. *)
Definition result {A : Type} (m : M A) : outcome A :=
  fst (m (start empty_session)).

(** A fetch function yields Failure: it returns [None] after reporting a
    message with [st.error]. *)
Definition Failure (m : M value) : Prop :=
  exists msg evs cs, logs m (Ok VNone) evs cs /\ In (UiError msg) evs.

(** What one turn of the loop of the upload tab makes of a candidate: an
    exception, nothing (the details could not be fetched), or the details
    and their overlap count. *)
Definition score (H : Host) (normalized_names : list string) (recipe : value)
  : outcome (option (value * nat)) :=
  let? recipe_id := getitem recipe "idMeal" in
  let? recipe_details := result (get_recipe_details H recipe_id) in
  if truthy recipe_details then
    let? count := match_count recipe_details normalized_names in
    Ok (Some (recipe_details, count))
  else Ok None.

(** [l] is [l1] and [l2] shuffled together, each keeping its order. *)
Inductive interleave {A : Type} : list A -> list A -> list A -> Prop :=
| interleave_nil : interleave [] [] []
| interleave_left x l1 l2 l : interleave l1 l2 l -> interleave (x :: l1) l2 (x :: l)
| interleave_right x l1 l2 l : interleave l1 l2 l -> interleave l1 (x :: l2) (x :: l).

(** A 200 response whose JSON object has no [key]. *)
Definition lacks_key (key : string) (response : Response) : Prop :=
  status_code response = 200%Z /\
  exists items, json response = Some (VDict items) /\ dict_lookup key items = None.

(** The session once [recipe] is stored as the best recipe. *)
Definition stored (recipe : value) (s : Session) : Session :=
  mkSession (Some recipe) (history s) (user_input s).

(** Some fetch reported a failure during the run that ended in [st]. *)
Definition failure_reported (st : State) : Prop :=
  exists msg, In (UiError msg) (ui st) /\
    (msg = decode_error \/ exists response, msg = status_error response).

(** A run of a tab from the session [s] that meets a fetch failure ends
    with the best recipe it started with. *)
Definition short_circuits (tab : M unit) : Prop :=
  forall s, failure_reported (snd (tab (start s))) ->
            best_recipe (session (snd (tab (start s)))) = best_recipe s.

(** The frame property as the specification words it, for both flows. *)
Definition failure_short_circuits_every_flow : Prop :=
  forall H : Host,
    (forall uploaded_file pressed, short_circuits (upload_products_tab H uploaded_file pressed)) /\
    (forall picked_category picked_area pressed,
        short_circuits (select_filters_tab H picked_category picked_area pressed)).

(** The tie-break as the specification words it: of two candidates with
    the greatest overlap count, the first one is stored, whatever the
    count and whatever becomes of the other candidates. *)
Definition first_of_ties_is_selected : Prop :=
  forall (H : Host) (N : list string) pre c1 mid c2 post d1 d2 k st,
    let recipes := (pre ++ c1 :: mid ++ c2 :: post)%list in
    score H N c1 = Ok (Some (d1, k)) ->
    score H N c2 = Ok (Some (d2, k)) ->
    (forall c d n, In c recipes -> score H N c = Ok (Some (d, n)) -> n <= k) ->
    (forall c d n, In c pre -> score H N c = Ok (Some (d, n)) -> n < k) ->
    session (snd (select_best_match H (VList recipes) N st)) = stored d1 (session st).

(** The request [search_recipes_by_ingredients] makes for [ingredient] and
    the one [get_recipe_details] makes for [recipe_id]. *)
Definition filter_url (ingredient : string) : string :=
  api ++ "filter.php?i=" ++ ingredient.

Definition lookup_url (H : Host) (recipe_id : value) : string :=
  api ++ "lookup.php?i=" ++ py_str H recipe_id.

(** The request [search_recipes_by_category_and_area] makes. *)
Definition filter_request (H : Host) (category area : value) : string :=
  api ++ "filter.php?c=" ++ py_str H category ++ "&a=" ++ py_str H area.

(** The catalogue answers the search for [ingredient] with the candidates
    [found]: status 200 and a JSON object whose [meals] is that list, or
    [null] when there is none. *)
Definition answers_with (H : Host) (ingredient : string) (found : list value) : Prop :=
  exists items page,
    requests_get H (filter_url ingredient) = Ok (mkResponse 200 (Some (VDict items)) page) /\
    (dict_lookup "meals" items = Some (VList found) \/
     (dict_lookup "meals" items = Some VNone /\ found = [])).

(** How the chat tab shows a line of the conversation. *)
Definition shown (message : string) : list UiEvent :=
  if prefix "Aspiring Chef:" message then [UiWrite message]
  else if prefix "Culinary Luminary:" message then [UiSuccess message]
  else [].

(** The slots of a recipe that the recipe page lists: those with both an
    ingredient and a measure. *)
Definition listed_slot (items : list (string * value)) (i : nat) : bool :=
  match dict_lookup ("strIngredient" ++ string_of_nat i) items,
        dict_lookup ("strMeasure" ++ string_of_nat i) items with
  | Some ingredient, Some measure => truthy ingredient && truthy measure
  | _, _ => false
  end.

(** The line the recipe page writes for a listed slot. *)
Definition slot_line (H : Host) (items : list (string * value)) (i : nat) : string :=
  match dict_lookup ("strIngredient" ++ string_of_nat i) items,
        dict_lookup ("strMeasure" ++ string_of_nat i) items with
  | Some ingredient, Some measure => py_str H measure ++ " " ++ py_str H ingredient
  | _, _ => ""
  end.

(** ** The monad *)

Lemma extend_nil st : extend st [] [] = st.
Proof. destruct st; unfold extend; cbn. now rewrite !app_nil_r. Qed.

Lemma extend_extend st e1 c1 e2 c2 :
  extend (extend st e1 c1) e2 c2 = extend st (e1 ++ e2) (c1 ++ c2).
Proof. unfold extend; cbn. now rewrite !app_assoc. Qed.

Lemma logs_ret {A} (a : A) : logs (ret a) (Ok a) [] [].
Proof. intro st. unfold ret. now rewrite extend_nil. Qed.

Lemma logs_raise {A} e : logs (@raise A e) (Raise e) [] [].
Proof. intro st. unfold raise. now rewrite extend_nil. Qed.

Lemma logs_lift {A} (o : outcome A) : logs (lift o) o [] [].
Proof. intro st. unfold lift. now rewrite extend_nil. Qed.

Lemma logs_emit e : logs (emit e) (Ok tt) [e] [].
Proof. intro st. unfold emit, extend. now rewrite app_nil_r. Qed.

Lemma logs_record_call c : logs (record_call c) (Ok tt) [] [c].
Proof. intro st. unfold record_call, extend. now rewrite app_nil_r. Qed.

Lemma logs_bind_ok {A B} (m : M A) (k : A -> M B) a e1 c1 r e2 c2 :
  logs m (Ok a) e1 c1 -> logs (k a) r e2 c2 ->
  logs (bind m k) r (e1 ++ e2) (c1 ++ c2).
Proof.
  intros Hm Hk st. unfold bind. rewrite Hm, Hk. now rewrite extend_extend.
Qed.

Lemma logs_bind_raise {A B} (m : M A) (k : A -> M B) e e1 c1 :
  logs m (Raise e) e1 c1 -> logs (bind m k) (Raise e) e1 c1.
Proof. intros Hm st. unfold bind. now rewrite Hm. Qed.

Lemma logs_try_ok {A} (body : M A) handler a e1 c1 :
  logs body (Ok a) e1 c1 -> logs (try_except body handler) (Ok a) e1 c1.
Proof. intros Hm st. unfold try_except. now rewrite Hm. Qed.

Lemma logs_try_raise {A} (body : M A) handler e e1 c1 r e2 c2 :
  logs body (Raise e) e1 c1 -> logs (handler e) r e2 c2 ->
  logs (try_except body handler) r (e1 ++ e2) (c1 ++ c2).
Proof.
  intros Hm Hh st. unfold try_except. rewrite Hm, Hh. now rewrite extend_extend.
Qed.

Lemma logs_result {A} (m : M A) r evs cs : logs m r evs cs -> result m = r.
Proof. intros Hm. unfold result. now rewrite Hm. Qed.

Lemma logs_fun {A} (m : M A) r1 e1 c1 r2 e2 c2 :
  logs m r1 e1 c1 -> logs m r2 e2 c2 -> r1 = r2 /\ e1 = e2 /\ c1 = c2.
Proof.
  intros H1 H2. specialize (H1 (start empty_session)).
  rewrite (H2 (start empty_session)) in H1. unfold extend in H1; cbn in H1.
  inversion H1; auto.
Qed.

Lemma logger_logs {A} (m : M A) :
  logger m -> exists evs cs, logs m (result m) evs cs.
Proof.
  intros (r & evs & cs & Hm). exists evs, cs.
  now rewrite (logs_result _ _ _ _ Hm).
Qed.

Lemma logger_ret {A} (a : A) : logger (ret a).
Proof. repeat eexists. apply logs_ret. Qed.

Lemma logger_raise {A} e : logger (@raise A e).
Proof. repeat eexists. apply logs_raise. Qed.

Lemma logger_lift {A} (o : outcome A) : logger (lift o).
Proof. repeat eexists. apply logs_lift. Qed.

Lemma logger_emit e : logger (emit e).
Proof. repeat eexists. apply logs_emit. Qed.

Lemma logger_record_call c : logger (record_call c).
Proof. repeat eexists. apply logs_record_call. Qed.

Lemma logger_bind {A B} (m : M A) (k : A -> M B) :
  logger m -> (forall a, logger (k a)) -> logger (bind m k).
Proof.
  intros (r & e1 & c1 & Hm) Hk. destruct r as [a | e].
  - destruct (Hk a) as (r & e2 & c2 & Hka).
    repeat eexists. eapply logs_bind_ok; eauto.
  - repeat eexists. eapply logs_bind_raise; eauto.
Qed.

Lemma logger_try_except {A} (body : M A) handler :
  logger body -> (forall e, logger (handler e)) -> logger (try_except body handler).
Proof.
  intros (r & e1 & c1 & Hm) Hh. destruct r as [a | e].
  - repeat eexists. eapply logs_try_ok; eauto.
  - destruct (Hh e) as (r & e2 & c2 & Hhe).
    repeat eexists. eapply logs_try_raise; eauto.
Qed.

Lemma logger_if {A} (b : bool) (m1 m2 : M A) :
  logger m1 -> logger m2 -> logger (if b then m1 else m2).
Proof. now destruct b. Qed.

Lemma logger_st_title s : logger (st_title s).
Proof. apply logger_emit. Qed.

Lemma logger_st_markdown s : logger (st_markdown s).
Proof. apply logger_emit. Qed.

Lemma logger_st_write s : logger (st_write s).
Proof. apply logger_emit. Qed.

Lemma logger_st_text s : logger (st_text s).
Proof. apply logger_emit. Qed.

Lemma logger_st_error s : logger (st_error s).
Proof. apply logger_emit. Qed.

Lemma logger_st_success s : logger (st_success s).
Proof. apply logger_emit. Qed.

Create HintDb logger.
#[export] Hint Resolve logger_ret logger_raise logger_lift logger_emit
  logger_record_call logger_bind logger_try_except logger_if
  logger_st_title logger_st_markdown logger_st_write logger_st_text
  logger_st_error logger_st_success : logger.

Lemma result_bind {A B} (m : M A) (k : A -> M B) :
  logger m -> (forall a, logger (k a)) ->
  result (bind m k) =
  match result m with
  | Ok a => result (k a)
  | Raise e => Raise e
  end.
Proof.
  intros Hm Hk. destruct (logger_logs _ Hm) as (e1 & c1 & Hm').
  destruct (result m) as [a | e].
  - destruct (logger_logs _ (Hk a)) as (e2 & c2 & Hk').
    eapply logs_result, logs_bind_ok; eauto.
  - eapply logs_result, logs_bind_raise; eauto.
Qed.

Lemma logger_preserves {A} (m : M A) : logger m -> preserves m.
Proof. intros (r & evs & cs & Hm) st. now rewrite Hm. Qed.

Lemma preserves_ret {A} (a : A) : preserves (ret a).
Proof. now intro st. Qed.

Lemma preserves_bind {A B} (m : M A) (k : A -> M B) :
  preserves m -> (forall a, preserves (k a)) -> preserves (bind m k).
Proof.
  intros Hm Hk st. unfold bind. specialize (Hm st).
  destruct (m st) as [[a | e] st1]; cbn in *.
  - now rewrite Hk.
  - assumption.
Qed.

(** After a logger it is enough to go on from the value it returns. *)
Lemma preserves_bind_result {A B} (m : M A) (k : A -> M B) :
  logger m -> (forall a, result m = Ok a -> preserves (k a)) -> preserves (bind m k).
Proof.
  intros Hm Hk st. destruct (logger_logs _ Hm) as (e1 & c1 & Hm').
  unfold bind. rewrite Hm'. destruct (result m) as [a | e]; cbn.
  - now rewrite Hk.
  - reflexivity.
Qed.

(** ** The fetch functions only log *)

Ltac logger_step :=
  match goal with
  | |- logger (bind _ _) => apply logger_bind; [ | intros ? ]
  | |- logger (try_except _ _) => apply logger_try_except; [ | intros [] ]
  | |- logger (if ?b then _ else _) => destruct b
  | |- logger (match ?x with _ => _ end) => destruct x
  | |- logger _ => solve [ auto with logger ]
  end.

Ltac logger_auto := repeat logger_step.

Section Loggers.

Variable H : Host.

Lemma logger_http_get url : logger (http_get H url).
Proof. unfold http_get. logger_auto. Qed.

Hint Resolve logger_http_get : logger.

Lemma logger_fetch_ingredient_list : logger (fetch_ingredient_list H).
Proof. unfold fetch_ingredient_list. logger_auto. Qed.

Lemma logger_fetch_category_list : logger (fetch_category_list H).
Proof. unfold fetch_category_list. logger_auto. Qed.

Lemma logger_fetch_area_list : logger (fetch_area_list H).
Proof. unfold fetch_area_list. logger_auto. Qed.

Lemma logger_search_loop ingredients :
  forall results, logger (search_loop H ingredients results).
Proof.
  induction ingredients as [| ingredient rest IH]; intro results; cbn [search_loop].
  - auto with logger.
  - apply logger_bind; [ auto with logger | intros response ].
    destruct (status_code response =? 200)%Z; [ | logger_auto ].
    apply logger_bind.
    + logger_auto.
    + intros [results' | ]; auto with logger.
Qed.

Lemma logger_search_recipes_by_ingredients ingredients :
  logger (search_recipes_by_ingredients H ingredients).
Proof. apply logger_search_loop. Qed.

Lemma logger_search_recipes_by_category_and_area category area :
  logger (search_recipes_by_category_and_area H category area).
Proof. unfold search_recipes_by_category_and_area. logger_auto. Qed.

Lemma logger_get_recipe_details recipe_id : logger (get_recipe_details H recipe_id).
Proof. unfold get_recipe_details. logger_auto. Qed.

Lemma logger_generate_response_gemma prompt : logger (generate_response_gemma H prompt).
Proof. unfold generate_response_gemma. logger_auto. Qed.

Lemma logger_generate_response_llama prompt : logger (generate_response_llama H prompt).
Proof. unfold generate_response_llama. logger_auto. Qed.

Hint Resolve logger_get_recipe_details : logger.

Lemma logger_best_match_loop recipes normalized_names :
  forall best count, logger (best_match_loop H recipes normalized_names best count).
Proof.
  induction recipes as [| recipe rest IH]; intros best count; cbn [best_match_loop].
  - auto with logger.
  - logger_auto; apply IH.
Qed.

End Loggers.

(** ** The chat tab *)

Section Chat.

Variable H : Host.

Lemma gemma_is_not_offered picked :
  value_eq_str (selectbox chef_options picked) "gemma:2b" = false.
Proof.
  destruct picked as [| [| [| n]]]; reflexivity.
Qed.

(** The gemma back end always returns, with the page and session as found. *)
Lemma generate_response_gemma_logs prompt :
  exists bot, logs (generate_response_gemma H prompt) (Ok bot) []
                   [OllamaGenerate "gemma:2b" prompt] /\
    (forall e, ollama_generate H "gemma:2b" prompt = Raise e ->
               bot = VStr ("An error occurred: " ++ exn_str H e)).
Proof.
  unfold generate_response_gemma, try_except, bind, record_call, lift, ret, logs, extend.
  cbn. destruct (ollama_generate H "gemma:2b" prompt) as [response | e].
  - destruct (getitem response "response") as [v | e'].
    + exists v. split; [ intro st; now rewrite app_nil_r | discriminate ].
    + eexists. split; [ intro st; now rewrite app_nil_r | discriminate ].
  - eexists. split; [ intro st; now rewrite app_nil_r | ].
    intros e' [= <-]. reflexivity.
Qed.

(** The llama back end always returns too; it calls the constructor and,
    when that succeeds, the model. *)
Lemma generate_response_llama_logs prompt :
  exists bot cs, logs (generate_response_llama H prompt) (Ok bot) [] (OllamaNew "llama2" :: cs) /\
    (forall model p, ~ In (OllamaGenerate model p) cs) /\
    (forall e, Ollama H "llama2" = Raise e ->
               bot = VStr ("An error occurred: " ++ exn_str H e)) /\
    (forall e, Ollama H "llama2" = Ok tt -> llm_invoke H "llama2" prompt = Raise e ->
               bot = VStr ("An error occurred: " ++ exn_str H e)).
Proof.
  unfold generate_response_llama, try_except, bind, record_call, lift, ret, logs, extend.
  cbn. destruct (Ollama H "llama2") as [[] | e].
  - destruct (llm_invoke H "llama2" prompt) as [v | e'].
    + exists v, [LlmInvoke "llama2" prompt]. repeat split.
      * intro st. now rewrite <- app_assoc, app_nil_r.
      * intros model p [Hin | []]; discriminate.
      * discriminate.
      * discriminate.
    + eexists _, [LlmInvoke "llama2" prompt]. repeat split.
      * intro st. now rewrite <- app_assoc, app_nil_r.
      * intros model p [Hin | []]; discriminate.
      * discriminate.
      * intros e _ [= <-]. reflexivity.
  - eexists _, []. repeat split.
    + intro st. now rewrite app_nil_r.
    + intros model p [].
    + intros e' [= <-]. reflexivity.
    + intros e' Hok. discriminate.
Qed.

Lemma show_history_logs messages :
  exists evs, logs (show_history messages) (Ok tt) evs [].
Proof.
  induction messages as [| message rest [evs IH]]; cbn [show_history].
  - exists []. apply logs_ret.
  - destruct (prefix "Aspiring Chef:" message).
    + eexists. change (@nil Call) with (@nil Call ++ [])%list.
      eapply logs_bind_ok; [ apply logs_emit | apply IH ].
    + destruct (prefix "Culinary Luminary:" message).
      * eexists. change (@nil Call) with (@nil Call ++ [])%list.
        eapply logs_bind_ok; [ apply logs_emit | apply IH ].
      * eexists. change (@nil Call) with (@nil Call ++ [])%list.
        eapply logs_bind_ok; [ apply logs_ret | apply IH ].
Qed.

(** A submission: whatever the chef picked and whatever the conversation
    was, the llama back end answers and the conversation becomes the two
    lines of this turn. *)
Lemma chatbot_tab_submit picked typed st bot cs :
  typed <> "" ->
  logs (generate_response_llama H typed) (Ok bot) [] cs ->
  exists evs,
    chatbot_tab H picked typed true st =
    (Ok tt,
     mkState (mkSession (best_recipe (session st))
                        (Some ["Aspiring Chef: " ++ typed;
                               "Culinary Luminary: " ++ py_str H bot])
                        (Some ""))
             (ui st ++ evs) (calls st ++ cs)).
Proof.
  intros Hne Hbot.
  assert (Hneb : (typed =? "") = false) by now apply String.eqb_neq.
  destruct st as [[best hist input] page called].
  unfold chatbot_tab. rewrite gemma_is_not_offered, Hneb. cbn [negb].
  exists ([UiTitle "Lumine AI ChatBot"; UiMarkdown chatbot_intro;
           UiWrite ("Aspiring Chef: " ++ typed);
           UiSuccess ("Culinary Luminary: " ++ py_str H bot)]).
  destruct hist, input;
    unfold bind, st_title, st_markdown, emit, get_session, set_history,
      set_user_input, history_append, put_session, ret; cbn;
    rewrite Hbot; unfold extend; cbn;
    rewrite app_nil_r, <- !app_assoc; reflexivity.
Qed.

(** Without a submission the tab calls nobody and keeps the best recipe. *)
Lemma chatbot_tab_idle picked typed pressed st :
  pressed = false \/ typed = "" ->
  calls (snd (chatbot_tab H picked typed pressed st)) = calls st.
Proof.
  intros Hidle.
  assert (Hskip : pressed = true -> negb (typed =? "") = false).
  { intros ->. destruct Hidle as [Hf | ->]; [ discriminate | reflexivity ]. }
  destruct st as [[best hist input] page called].
  unfold chatbot_tab.
  destruct pressed; [ rewrite Hskip by reflexivity | ];
    destruct hist as [h |], input;
    unfold bind, st_title, st_markdown, emit, get_session, set_history,
      set_user_input, put_session, ret; cbn;
    first
      [ reflexivity
      | match goal with
        | |- context [show_history ?h] =>
            destruct (show_history_logs h) as [evs Hshow]; rewrite Hshow; cbn;
            now rewrite app_nil_r
        end ].
Qed.

End Chat.

(** ** The loop of the upload tab *)

Section BestMatch.

Variable H : Host.
Variable N : list string.

Lemma result_lift {A} (o : outcome A) : result (lift o) = o.
Proof. reflexivity. Qed.

Lemma result_ret {A} (a : A) : result (ret a) = Ok a.
Proof. reflexivity. Qed.

(** One turn of the loop, read off the candidate's score. *)
Lemma best_match_loop_step recipe rest best count :
  result (best_match_loop H (recipe :: rest) N best count) =
  match score H N recipe with
  | Raise e => Raise e
  | Ok None => result (best_match_loop H rest N best count)
  | Ok (Some (details, n)) =>
      if (count <? n)%nat
      then result (best_match_loop H rest N details n)
      else result (best_match_loop H rest N best count)
  end.
Proof.
  cbn [best_match_loop]. unfold score.
  rewrite result_bind; [ | auto with logger | ].
  2:{ intros a. logger_auto; try apply logger_get_recipe_details;
      apply logger_best_match_loop. }
  rewrite result_lift.
  destruct (getitem recipe "idMeal") as [recipe_id | e]; cbn [obind]; [ | reflexivity ].
  rewrite result_bind; [ | apply logger_get_recipe_details | ].
  2:{ intros a. logger_auto; apply logger_best_match_loop. }
  destruct (result (get_recipe_details H recipe_id)) as [details | e];
    cbn [obind]; [ | reflexivity ].
  destruct (truthy details); [ | reflexivity ].
  rewrite result_bind; [ | auto with logger | ].
  2:{ intros a. logger_auto; apply logger_best_match_loop. }
  rewrite result_lift.
  destruct (match_count details N) as [n | e]; cbn [obind]; [ | reflexivity ].
  now destruct (count <? n)%nat.
Qed.

Lemma score_truthy recipe details n :
  score H N recipe = Ok (Some (details, n)) ->
  truthy details = true /\ match_count details N = Ok n.
Proof.
  unfold score.
  destruct (getitem recipe "idMeal") as [recipe_id | e]; cbn [obind]; [ | discriminate ].
  destruct (result (get_recipe_details H recipe_id)) as [d | e];
    cbn [obind]; [ | discriminate ].
  destruct (truthy d) eqn:Ht; [ | discriminate ].
  destruct (match_count d N) as [k | e] eqn:Hcount; cbn [obind]; [ | discriminate ].
  intros [= <- <-]. auto.
Qed.

(** What the loop returns: the pair it was entered with, when no candidate
    scores above it; otherwise the first candidate whose score is the
    greatest, all those before it scoring strictly less. *)
Lemma best_match_loop_first_best recipes :
  forall best count best' count',
    result (best_match_loop H recipes N best count) = Ok (best', count') ->
    (best' = best /\ count' = count /\
     forall c d n, In c recipes -> score H N c = Ok (Some (d, n)) -> n <= count)
    \/
    (exists pre c post,
        recipes = (pre ++ c :: post)%list /\
        score H N c = Ok (Some (best', count')) /\
        count < count' /\
        (forall c' d n, In c' pre -> score H N c' = Ok (Some (d, n)) -> n < count') /\
        (forall c' d n, In c' post -> score H N c' = Ok (Some (d, n)) -> n <= count')).
Proof.
  induction recipes as [| recipe rest IH]; intros best count best' count' Hrun.
  - cbn in Hrun. injection Hrun as <- <-. left. repeat split. intros c d n [].
  - rewrite best_match_loop_step in Hrun.
    destruct (score H N recipe) as [[[details n] | ] | e] eqn:Hscore; [ | | discriminate ].
    + destruct (count <? n)%nat eqn:Hlt.
      * apply Nat.ltb_lt in Hlt.
        destruct (IH _ _ _ _ Hrun) as [(-> & -> & Hrest) | (pre & c & post & -> & Hc & Hgt & Hpre & Hpost)].
        -- right. exists [], recipe, rest. repeat split; auto.
           intros c' d' n' [].
        -- right. exists (recipe :: pre), c, post. repeat split; auto; [ lia | ].
           intros c' d' n' [<- | Hin] Hc'.
           ++ rewrite Hscore in Hc'. injection Hc' as <- <-. lia.
           ++ eauto.
      * apply Nat.ltb_ge in Hlt.
        destruct (IH _ _ _ _ Hrun) as [(-> & -> & Hrest) | (pre & c & post & -> & Hc & Hgt & Hpre & Hpost)].
        -- left. repeat split. intros c d' n' [<- | Hin] Hc.
           ++ rewrite Hscore in Hc. injection Hc as <- <-. lia.
           ++ eauto.
        -- right. exists (recipe :: pre), c, post. repeat split; auto.
           intros c' d' n' [<- | Hin] Hc'.
           ++ rewrite Hscore in Hc'. injection Hc' as <- <-. lia.
           ++ eauto.
    + destruct (IH _ _ _ _ Hrun) as [(-> & -> & Hrest) | (pre & c & post & -> & Hc & Hgt & Hpre & Hpost)].
      * left. repeat split. intros c d' n' [<- | Hin] Hc.
        -- rewrite Hscore in Hc. discriminate.
        -- eauto.
      * right. exists (recipe :: pre), c, post. repeat split; auto.
        intros c' d' n' [<- | Hin] Hc'.
        -- rewrite Hscore in Hc'. discriminate.
        -- eauto.
Qed.

(** The loop returns as soon as every candidate can be scored. *)
Lemma best_match_loop_returns recipes :
  (forall c, In c recipes -> exists s, score H N c = Ok s) ->
  forall best count, exists found, result (best_match_loop H recipes N best count) = Ok found.
Proof.
  induction recipes as [| recipe rest IH]; intros Hall best count.
  - eexists. reflexivity.
  - rewrite best_match_loop_step.
    destruct (Hall recipe (or_introl eq_refl)) as [s ->].
    assert (Hrest : forall c, In c rest -> exists s, score H N c = Ok s)
      by (intros c Hc; apply Hall; now right).
    destruct s as [[details n] | ]; [ destruct (count <? n)%nat | ]; now apply IH.
Qed.

(** What [select_best_match] does with a list of candidates that is not
    empty, read off the result of the loop. *)
Lemma select_best_match_run recipes st :
  recipes <> [] ->
  exists evs cs,
    select_best_match H (VList recipes) N st =
    match result (best_match_loop H recipes N VNone 0) with
    | Ok (best, _) =>
        if truthy best
        then (Ok tt, mkState (stored best (session st)) (ui st ++ evs) (calls st ++ cs))
        else (Ok tt, extend st (evs ++ [UiWrite no_match_message]) cs)
    | Raise e => (Raise e, extend st evs cs)
    end.
Proof.
  intros Hne.
  destruct (logger_logs _ (logger_best_match_loop H recipes N VNone 0)) as (evs & cs & Hloop).
  exists (UiSuccess unlocked_message :: evs), cs.
  unfold select_best_match.
  replace (truthy (VList recipes)) with true by (now destruct recipes).
  unfold bind, st_success, st_write, emit, lift, set_best_recipe, get_session, put_session.
  cbn [py_iter]. rewrite Hloop.
  destruct (result (best_match_loop H recipes N VNone 0)) as [[best count] | e].
  - cbn [fst]. destruct (truthy best); unfold extend, stored; cbn.
    + now rewrite <- !app_assoc.
    + now rewrite <- !app_assoc.
  - unfold extend; cbn. now rewrite <- !app_assoc.
Qed.

Lemma select_best_match_empty st :
  select_best_match H (VList []) N st =
  (Ok tt, extend st [UiWrite "No recipes found. Time to get creative in the kitchen!"] []).
Proof.
  unfold select_best_match, st_write, emit, extend. cbn. now rewrite app_nil_r.
Qed.

(** When no candidate scores above zero, nothing is stored. *)
Lemma select_best_match_no_match recipes st :
  (forall c d n, In c recipes -> score H N c = Ok (Some (d, n)) -> n = 0) ->
  session (snd (select_best_match H (VList recipes) N st)) = session st /\
  (fst (select_best_match H (VList recipes) N st) = Ok tt ->
   exists msg, In (UiWrite msg) (ui (snd (select_best_match H (VList recipes) N st))) /\
               (msg = no_match_message \/
                msg = "No recipes found. Time to get creative in the kitchen!")).
Proof.
  intros Hzero. destruct recipes as [| r0 rest].
  - rewrite select_best_match_empty. split; [ reflexivity | ].
    intros _. eexists. split; [ | right; reflexivity ].
    cbn. apply in_or_app. right. now left.
  - destruct (select_best_match_run (r0 :: rest) st) as (evs & cs & ->); [ discriminate | ].
    destruct (result (best_match_loop H (r0 :: rest) N VNone 0)) as [[best count] | e] eqn:Hrun.
    + destruct (best_match_loop_first_best _ _ _ _ _ Hrun)
        as [(-> & -> & _) | (pre & c & post & Heq & Hc & Hgt & _)].
      * cbn [truthy]. split; [ reflexivity | ].
        intros _. exists no_match_message. split; [ | now left ].
        cbn. apply in_or_app. right. apply in_or_app. right. now left.
      * exfalso. assert (count = 0); [ | lia ].
        eapply Hzero; [ | exact Hc ]. rewrite Heq. apply in_or_app. right. now left.
    + split; [ reflexivity | discriminate ].
Qed.

End BestMatch.

(** ** The two search flows *)

Ltac preserves_logger := apply logger_preserves; logger_auto.

Section Flows.

Variable H : Host.

Lemma Failure_result m : Failure m -> result m = Ok VNone.
Proof. intros (msg & evs & cs & Hm & _). exact (logs_result _ _ _ _ Hm). Qed.

Lemma getitem_truthy v key x : getitem v key = Ok x -> truthy v = true.
Proof.
  destruct v; try discriminate. destruct items as [| kv rest]; [ discriminate | reflexivity ].
Qed.

(** The upload tab touches the session only through [select_best_match],
    run on what the two fetches before it returned. *)
Lemma upload_products_tab_preserves file pressed :
  (forall R names recipes,
      result (fetch_ingredient_list H) = Ok R ->
      truthy R = true ->
      normalize_ingredients (unique file) R = Ok names ->
      pressed = true ->
      result (search_recipes_by_ingredients H (fst names)) = Ok recipes ->
      preserves (select_best_match H recipes (fst names))) ->
  preserves (upload_products_tab H (Some file) pressed).
Proof.
  intros Hselect. unfold upload_products_tab, load_items.
  apply preserves_bind; [ preserves_logger | intros _ ].
  apply preserves_bind; [ preserves_logger | intros _ ].
  apply preserves_bind; [ preserves_logger | intros _ ].
  apply preserves_bind; [ preserves_logger | intros _ ].
  apply preserves_bind_result; [ apply logger_fetch_ingredient_list | intros R HR ].
  destruct (truthy R) eqn:HtR; [ | apply preserves_ret ].
  apply preserves_bind_result; [ auto with logger | intros names Hnames ].
  rewrite result_lift in Hnames.
  destruct pressed; [ | apply preserves_ret ].
  apply preserves_bind_result;
    [ apply logger_search_recipes_by_ingredients | intros recipes Hrecipes ].
  eapply Hselect; eauto.
Qed.

(** The filter tab touches the session only through [select_first], run
    on what the search returned for the two picked filters. *)
Lemma select_filters_tab_preserves picked_category picked_area pressed :
  (forall categories areas category_options area_options recipes,
      result (fetch_category_list H) = Ok categories ->
      result (fetch_area_list H) = Ok areas ->
      list_concat [VStr "All"] categories = Ok category_options ->
      list_concat [VStr "All"] areas = Ok area_options ->
      result (search_recipes_by_category_and_area H
                (selectbox category_options picked_category)
                (selectbox area_options picked_area)) = Ok recipes ->
      preserves (select_first H recipes)) ->
  preserves (select_filters_tab H picked_category picked_area pressed).
Proof.
  intros Hselect. unfold select_filters_tab.
  apply preserves_bind; [ preserves_logger | intros _ ].
  apply preserves_bind; [ preserves_logger | intros _ ].
  apply preserves_bind_result; [ apply logger_fetch_category_list | intros categories Hc ].
  apply preserves_bind_result; [ apply logger_fetch_area_list | intros areas Ha ].
  apply preserves_bind_result; [ auto with logger | intros category_options Hco ].
  apply preserves_bind_result; [ auto with logger | intros area_options Hao ].
  rewrite result_lift in Hco, Hao.
  destruct pressed; [ | apply preserves_ret ].
  match goal with |- preserves (if ?b then _ else _) => destruct b end;
    [ | preserves_logger ].
  apply preserves_bind_result;
    [ apply logger_search_recipes_by_category_and_area | intros recipes Hrecipes ].
  eapply Hselect; eauto.
Qed.

(** [select_first] on a list that starts with a candidate reference: one
    lookup, for that candidate, and what it returns is stored. *)
Lemma select_first_run recipe rest recipe_id r evs cs st :
  getitem recipe "idMeal" = Ok recipe_id ->
  logs (get_recipe_details H recipe_id) r evs cs ->
  select_first H (VList (recipe :: rest)) st =
  match r with
  | Ok details =>
      (Ok tt, mkState (stored details (session st))
                      (ui st ++ UiSuccess unlocked_message :: evs) (calls st ++ cs))
  | Raise e => (Raise e, extend st (UiSuccess unlocked_message :: evs) cs)
  end.
Proof.
  intros Hid Hlogs. unfold select_first. cbn [truthy getitem0].
  unfold bind, st_success, emit, lift, set_best_recipe, get_session, put_session.
  rewrite (getitem_truthy _ _ _ Hid), Hid, Hlogs.
  destruct r as [details | e]; unfold extend, stored; cbn; now rewrite <- !app_assoc.
Qed.

(** The one call [get_recipe_details] makes. *)
Lemma get_recipe_details_calls recipe_id r evs cs :
  logs (get_recipe_details H recipe_id) r evs cs ->
  cs = [HttpGet (api ++ "lookup.php?i=" ++ py_str H recipe_id)].
Proof.
  intros Hlogs. specialize (Hlogs (start empty_session)).
  apply (f_equal (fun p => calls (snd p))) in Hlogs. cbn [extend snd calls start app] in Hlogs.
  rewrite <- Hlogs. unfold get_recipe_details, http_get, bind, record_call, lift. cbn.
  destruct (requests_get H _) as [response | e]; [ | reflexivity ].
  destruct (status_code response =? 200)%Z; [ | reflexivity ].
  unfold try_except, bind, lift.
  destruct (response_json response) as [body | e]; [ | destruct e; reflexivity ].
  destruct (getitem body "meals") as [m | e]; [ | destruct e; reflexivity ].
  destruct (getitem0 m) as [d | e]; [ | destruct e ]; reflexivity.
Qed.

End Flows.

(** ** The ingredient normaliser *)

Lemma value_eq_str_spec v s : value_eq_str v s = true <-> v = VStr s.
Proof.
  destruct v; cbn; try (split; [ discriminate | intros [=] ]).
  rewrite String.eqb_eq. split; [ now intros -> | now intros [= ->] ].
Qed.

Lemma str_in_spec name values : str_in name values = true <-> In (VStr name) values.
Proof.
  unfold str_in. rewrite existsb_exists. split.
  - intros (v & Hin & Heq). apply value_eq_str_spec in Heq. now subst.
  - intros Hin. exists (VStr name). split; [ assumption | now apply value_eq_str_spec ].
Qed.

Lemma filter_interleave {A} (f : A -> bool) (l : list A) :
  interleave (filter f l) (filter (fun x => negb (f x)) l) l.
Proof.
  induction l as [| x l IH]; cbn.
  - constructor.
  - destruct (f x); cbn; now constructor.
Qed.

Lemma interleave_count_occ (l1 l2 l : list string) :
  interleave l1 l2 l ->
  forall x, count_occ string_dec l x = count_occ string_dec l1 x + count_occ string_dec l2 x.
Proof.
  induction 1 as [| y l1 l2 l _ IH | y l1 l2 l _ IH]; intros x; cbn.
  - reflexivity.
  - destruct (string_dec y x); rewrite IH; lia.
  - destruct (string_dec y x); rewrite IH; lia.
Qed.

(** C5. [normalize_ingredients] splits the product names in two: on a list
    of recognised ingredients that all carry a name it returns two lists
    that, shuffled together without reordering either, give back the
    product names (so order and duplicates are kept and every occurrence
    goes to exactly one side); a name goes to the first list exactly when
    it is, character for character, the name of a recognised ingredient. *)
Theorem normalize_ingredients_partitions (P : list string) (R names : list value) :
  omap (fun ingredient => getitem ingredient "strIngredient") R = Ok names ->
  exists matched unmatched,
    normalize_ingredients P (VList R) = Ok (matched, unmatched) /\
    interleave matched unmatched P /\
    (forall x, In x matched <-> In x P /\ In (VStr x) names) /\
    (forall x, In x unmatched <-> In x P /\ ~ In (VStr x) names) /\
    (forall x, count_occ string_dec P x =
               count_occ string_dec matched x + count_occ string_dec unmatched x).
Proof.
  intros Hnames. unfold normalize_ingredients. cbn [py_iter obind]. rewrite Hnames. cbn [obind].
  do 2 eexists. split; [ reflexivity | ].
  split; [ apply filter_interleave | ].
  split; [ | split ].
  - intros x. rewrite filter_In, str_in_spec. reflexivity.
  - intros x. rewrite filter_In, negb_true_iff, <- not_true_iff_false, str_in_spec. reflexivity.
  - apply interleave_count_occ, filter_interleave.
Qed.

Lemma normalize_ingredients_partitions_witness :
  exists matched unmatched,
    normalize_ingredients ["Chicken"; "Tofu"; "chicken"; "Chicken"]
      (VList [VDict [("strIngredient", VStr "Chicken")]; VDict [("strIngredient", VStr "Salt")]])
    = Ok (matched, unmatched) /\
    interleave matched unmatched ["Chicken"; "Tofu"; "chicken"; "Chicken"] /\
    (forall x, In x matched <->
               In x ["Chicken"; "Tofu"; "chicken"; "Chicken"] /\
               In (VStr x) [VStr "Chicken"; VStr "Salt"]) /\
    (forall x, In x unmatched <->
               In x ["Chicken"; "Tofu"; "chicken"; "Chicken"] /\
               ~ In (VStr x) [VStr "Chicken"; VStr "Salt"]) /\
    (forall x, count_occ string_dec ["Chicken"; "Tofu"; "chicken"; "Chicken"] x =
               count_occ string_dec matched x + count_occ string_dec unmatched x).
Proof.
  apply (normalize_ingredients_partitions
           ["Chicken"; "Tofu"; "chicken"; "Chicken"]
           [VDict [("strIngredient", VStr "Chicken")]; VDict [("strIngredient", VStr "Salt")]]
           [VStr "Chicken"; VStr "Salt"]).
  reflexivity.
Defined.

(** ** The chat back ends and the chat flow *)

(** C7. Neither chat back end ever raises: from any state and for any
    prompt, each returns a value and leaves the session alone; when the
    model call (or, for llama, the construction of the wrapper) throws [e],
    the value returned is the string "An error occurred: " followed by
    [str(e)]. *)
Theorem generate_response_never_raises (H : Host) (prompt : string) (st : State) :
  (exists reply st',
      generate_response_gemma H prompt st = (Ok reply, st') /\
      session st' = session st /\
      (forall e, ollama_generate H "gemma:2b" prompt = Raise e ->
                 reply = VStr ("An error occurred: " ++ exn_str H e))) /\
  (exists reply st',
      generate_response_llama H prompt st = (Ok reply, st') /\
      session st' = session st /\
      (forall e, Ollama H "llama2" = Raise e \/
                 (Ollama H "llama2" = Ok tt /\ llm_invoke H "llama2" prompt = Raise e) ->
                 reply = VStr ("An error occurred: " ++ exn_str H e))).
Proof.
  split.
  - destruct (generate_response_gemma_logs H prompt) as (bot & Hlogs & Herr).
    exists bot, (extend st [] [OllamaGenerate "gemma:2b" prompt]).
    split; [ apply Hlogs | split; [ reflexivity | exact Herr ] ].
  - destruct (generate_response_llama_logs H prompt) as (bot & cs & Hlogs & _ & Hnew & Hinvoke).
    exists bot, (extend st [] (OllamaNew "llama2" :: cs)).
    split; [ apply Hlogs | split; [ reflexivity | ] ].
    intros e [Hraise | [Hok Hraise]]; eauto.
Qed.

Lemma generate_response_never_raises_witness :
  fst (generate_response_gemma kitchen "Any soup?" (start empty_session))
  = Ok (VStr "An error occurred: connection refused") /\
  fst (generate_response_llama keyless "Any soup?" (start empty_session))
  = Ok (VStr "An error occurred: no such model").
Proof.
  destruct (generate_response_never_raises kitchen "Any soup?" (start empty_session))
    as [(reply & st' & Hrun & _ & Herr) _].
  destruct (generate_response_never_raises keyless "Any soup?" (start empty_session))
    as [_ (reply' & st'' & Hrun' & _ & Herr')].
  rewrite Hrun, Hrun'. cbn [fst].
  rewrite (Herr (LibraryError "connection refused") eq_refl).
  rewrite (Herr' (LibraryError "no such model") (or_introl eq_refl)).
  split; reflexivity.
Defined.

(** C9. A submission with a non-empty input leaves a transcript of exactly
    two lines, the user's line and then the answer of this turn, whatever
    the transcript held before and whichever chef is picked. *)
Theorem chat_transcript_is_the_last_turn (H : Host) (picked : nat) (typed : string) (st : State) :
  typed <> "" ->
  exists bot st',
    chatbot_tab H picked typed true st = (Ok tt, st') /\
    result (generate_response_llama H typed) = Ok bot /\
    history (session st') =
      Some ["Aspiring Chef: " ++ typed; "Culinary Luminary: " ++ py_str H bot].
Proof.
  intros Hne.
  destruct (generate_response_llama_logs H typed) as (bot & cs & Hlogs & _).
  destruct (chatbot_tab_submit H picked typed st bot _ Hne Hlogs) as [evs Hrun].
  exists bot. eexists. split; [ exact Hrun | ].
  split; [ exact (logs_result _ _ _ _ Hlogs) | reflexivity ].
Qed.

Lemma chat_transcript_is_the_last_turn_witness :
  exists bot st',
    chatbot_tab kitchen 1 "Any stew?" true (start chatted) = (Ok tt, st') /\
    result (generate_response_llama kitchen "Any stew?") = Ok bot /\
    history (session st') =
      Some ["Aspiring Chef: " ++ "Any stew?"; "Culinary Luminary: " ++ py_str kitchen bot].
Proof.
  apply (chat_transcript_is_the_last_turn kitchen 1 "Any stew?" (start chatted)).
  discriminate.
Defined.

(** C10. Whatever is picked in the select box is one of the two chefs on
    offer and neither is the string "gemma:2b"; so a submission runs the
    llama back end (its calls are the calls of the run, the first of them
    the construction of the llama2 wrapper) and [ollama.generate], the call
    of the gemma back end, is never made; without a submission no back end
    is called at all. *)
Theorem chat_always_uses_llama (H : Host) (picked : nat) (typed : string) (pressed : bool)
  (st : State) :
  In (selectbox chef_options picked) chef_options /\
  (forall chef, In chef chef_options -> value_eq_str chef "gemma:2b" = false) /\
  (pressed = false \/ typed = "" ->
   calls (snd (chatbot_tab H picked typed pressed st)) = calls st) /\
  (pressed = true -> typed <> "" ->
   exists bot cs,
     logs (generate_response_llama H typed) (Ok bot) [] (OllamaNew "llama2" :: cs) /\
     calls (snd (chatbot_tab H picked typed pressed st))
     = (calls st ++ OllamaNew "llama2" :: cs)%list /\
     (forall model prompt, ~ In (OllamaGenerate model prompt) (OllamaNew "llama2" :: cs)) /\
     history (session (snd (chatbot_tab H picked typed pressed st))) =
       Some ["Aspiring Chef: " ++ typed; "Culinary Luminary: " ++ py_str H bot]).
Proof.
  split; [ | split; [ | split ] ].
  - destruct picked as [| [| [| n]]]; cbn; auto.
  - intros chef [<- | [<- | []]]; reflexivity.
  - apply chatbot_tab_idle.
  - intros -> Hne.
    destruct (generate_response_llama_logs H typed) as (bot & cs & Hlogs & Hnone & _).
    destruct (chatbot_tab_submit H picked typed st bot _ Hne Hlogs) as [evs Hrun].
    exists bot, cs. rewrite Hrun. cbn [snd calls session history].
    repeat split; auto.
    intros model prompt [Hin | Hin]; [ discriminate | now apply Hnone in Hin ].
Qed.

Lemma chat_always_uses_llama_witness :
  (exists cs, calls (snd (chatbot_tab kitchen 0 "Any stew?" true (start chatted)))
              = OllamaNew "llama2" :: cs) /\
  ~ In (OllamaGenerate "gemma:2b" "Any stew?")
       (calls (snd (chatbot_tab kitchen 0 "Any stew?" true (start chatted)))).
Proof.
  destruct (chat_always_uses_llama kitchen 0 "Any stew?" true (start chatted))
    as (_ & _ & _ & Hsubmit).
  destruct (Hsubmit eq_refl) as (bot & cs & _ & Hcalls & Hnone & _); [ discriminate | ].
  rewrite Hcalls. cbn [calls start app]. split; [ now exists cs | apply Hnone ].
Defined.

(** ** The answers of the recipe database *)

Ltac run_fetch Hget :=
  intros st;
  unfold http_get, try_except, bind, record_call, lift, st_error, emit, ret, raise, extend;
  cbn [fst snd session ui calls];
  rewrite Hget; cbn [status_code json text].

(** C2. On a 200 response whose JSON object holds an empty [meals] array,
    [get_recipe_details] raises an [IndexError]: it reports nothing and
    returns nothing, the clause [except (ValueError, KeyError)] not
    covering the exception of [[][0]]. *)
Theorem get_recipe_details_empty_meals_raises (H : Host) (recipe_id : value)
  (items : list (string * value)) (page : string) :
  requests_get H (api ++ "lookup.php?i=" ++ py_str H recipe_id)
  = Ok (mkResponse 200 (Some (VDict items)) page) ->
  dict_lookup "meals" items = Some (VList []) ->
  logs (get_recipe_details H recipe_id) (Raise IndexError) []
       [HttpGet (api ++ "lookup.php?i=" ++ py_str H recipe_id)].
Proof.
  intros Hget Hmeals. unfold get_recipe_details. run_fetch Hget.
  cbn. rewrite Hmeals. cbn. now rewrite app_nil_r.
Qed.

Lemma get_recipe_details_empty_meals_raises_witness :
  logs (get_recipe_details kitchen (VStr "5")) (Raise IndexError) []
       [HttpGet (api ++ "lookup.php?i=" ++ py_str kitchen (VStr "5"))].
Proof.
  apply (get_recipe_details_empty_meals_raises kitchen (VStr "5") [("meals", VList [])] "");
    reflexivity.
Defined.

(** C3. On a 200 response whose JSON object lacks the expected key, five
    of the six fetch functions raise a [KeyError] and report nothing, their
    [except] clause naming [ValueError] alone; only [get_recipe_details],
    which also names [KeyError], reports "Error decoding JSON response" and
    returns [None]. *)
Theorem missing_key_raises_KeyError (H : Host) :
  (forall r, requests_get H (api ++ "list.php?i=list") = Ok r -> lacks_key "meals" r ->
     logs (fetch_ingredient_list H) (Raise KeyError) [] [HttpGet (api ++ "list.php?i=list")]) /\
  (forall r, requests_get H (api ++ "categories.php") = Ok r -> lacks_key "categories" r ->
     logs (fetch_category_list H) (Raise KeyError) [] [HttpGet (api ++ "categories.php")]) /\
  (forall r, requests_get H (api ++ "list.php?a=list") = Ok r -> lacks_key "meals" r ->
     logs (fetch_area_list H) (Raise KeyError) [] [HttpGet (api ++ "list.php?a=list")]) /\
  (forall ingredient rest r,
     requests_get H (api ++ "filter.php?i=" ++ ingredient) = Ok r -> lacks_key "meals" r ->
     logs (search_recipes_by_ingredients H (ingredient :: rest)) (Raise KeyError) []
          [HttpGet (api ++ "filter.php?i=" ++ ingredient)]) /\
  (forall category area r,
     requests_get H (api ++ "filter.php?c=" ++ py_str H category ++ "&a=" ++ py_str H area) = Ok r ->
     lacks_key "meals" r ->
     logs (search_recipes_by_category_and_area H category area) (Raise KeyError) []
          [HttpGet (api ++ "filter.php?c=" ++ py_str H category ++ "&a=" ++ py_str H area)]) /\
  (forall recipe_id r,
     requests_get H (api ++ "lookup.php?i=" ++ py_str H recipe_id) = Ok r -> lacks_key "meals" r ->
     logs (get_recipe_details H recipe_id) (Ok VNone) [UiError decode_error]
          [HttpGet (api ++ "lookup.php?i=" ++ py_str H recipe_id)]).
Proof.
  repeat split.
  - intros [code body page] Hget (Hcode & items & Hbody & Hkey). cbn in Hcode, Hbody. subst.
    unfold fetch_ingredient_list. run_fetch Hget.
    cbn. rewrite Hkey. cbn. now rewrite app_nil_r.
  - intros [code body page] Hget (Hcode & items & Hbody & Hkey). cbn in Hcode, Hbody. subst.
    unfold fetch_category_list. run_fetch Hget.
    cbn. rewrite Hkey. cbn. now rewrite app_nil_r.
  - intros [code body page] Hget (Hcode & items & Hbody & Hkey). cbn in Hcode, Hbody. subst.
    unfold fetch_area_list. run_fetch Hget.
    cbn. rewrite Hkey. cbn. now rewrite app_nil_r.
  - intros ingredient rest [code body page] Hget (Hcode & items & Hbody & Hkey).
    cbn in Hcode, Hbody. subst.
    unfold search_recipes_by_ingredients. cbn [search_loop]. run_fetch Hget.
    cbn. rewrite Hkey. cbn. now rewrite app_nil_r.
  - intros category area [code body page] Hget (Hcode & items & Hbody & Hkey).
    cbn in Hcode, Hbody. subst.
    unfold search_recipes_by_category_and_area. run_fetch Hget.
    cbn. rewrite Hkey. cbn. now rewrite app_nil_r.
  - intros recipe_id [code body page] Hget (Hcode & items & Hbody & Hkey).
    cbn in Hcode, Hbody. subst.
    unfold get_recipe_details. run_fetch Hget.
    cbn. rewrite Hkey. cbn. reflexivity.
Qed.

Lemma missing_key_raises_KeyError_witness :
  logs (fetch_ingredient_list keyless) (Raise KeyError) [] [HttpGet (api ++ "list.php?i=list")] /\
  logs (search_recipes_by_category_and_area keyless (VStr "Soup") (VStr "All")) (Raise KeyError) []
       [HttpGet (api ++ "filter.php?c=Soup&a=All")] /\
  logs (get_recipe_details keyless (VStr "52772")) (Ok VNone) [UiError decode_error]
       [HttpGet (api ++ "lookup.php?i=52772")].
Proof.
  assert (Hlacks : forall key, lacks_key key (ok_json (VDict []))).
  { intros key. split; [ reflexivity | exists []; split; reflexivity ]. }
  destruct (missing_key_raises_KeyError keyless) as (Hi & _ & _ & _ & Hs & Hd).
  split; [ | split ].
  - apply (Hi (ok_json (VDict []))); [ reflexivity | apply Hlacks ].
  - apply (Hs (VStr "Soup") (VStr "All") (ok_json (VDict []))); [ reflexivity | apply Hlacks ].
  - apply (Hd (VStr "52772") (ok_json (VDict []))); [ reflexivity | apply Hlacks ].
Defined.

(** ** The selection of the filter tab *)

(** C8. On a list of candidates that is not empty, the filter tab looks up
    the first candidate, and only that one, and stores what the lookup
    returns as the best recipe; the candidates after the first play no
    part and no overlap is counted. *)
Theorem filter_search_stores_first_candidate (H : Host) (recipe : value) (rest : list value)
  (recipe_id : value) (st : State) :
  getitem recipe "idMeal" = Ok recipe_id ->
  exists r evs,
    logs (get_recipe_details H recipe_id) r evs
         [HttpGet (api ++ "lookup.php?i=" ++ py_str H recipe_id)] /\
    select_first H (VList (recipe :: rest)) st =
    match r with
    | Ok details =>
        (Ok tt, mkState (stored details (session st))
                        (ui st ++ UiSuccess unlocked_message :: evs)
                        (calls st ++ [HttpGet (api ++ "lookup.php?i=" ++ py_str H recipe_id)]))
    | Raise e =>
        (Raise e, extend st (UiSuccess unlocked_message :: evs)
                         [HttpGet (api ++ "lookup.php?i=" ++ py_str H recipe_id)])
    end.
Proof.
  intros Hid.
  destruct (logger_logs _ (logger_get_recipe_details H recipe_id)) as (evs & cs & Hlogs).
  pose proof (get_recipe_details_calls H _ _ _ _ Hlogs) as ->.
  exists (result (get_recipe_details H recipe_id)), evs.
  split; [ exact Hlogs | ].
  apply (select_first_run H recipe rest recipe_id); assumption.
Qed.

Lemma filter_search_stores_first_candidate_witness :
  select_first kitchen (VList [stub "2" "Chicken Soup"; stub "3" "Salted Chicken"])
               (start (session_with plain_rice))
  = (Ok tt, mkState (session_with chicken_soup) [UiSuccess unlocked_message]
                    [HttpGet (api ++ "lookup.php?i=2")]).
Proof.
  destruct (filter_search_stores_first_candidate kitchen (stub "2" "Chicken Soup")
              [stub "3" "Salted Chicken"] (VStr "2") (start (session_with plain_rice)) eq_refl)
    as (r & evs & Hlogs & Hrun).
  rewrite Hrun.
  specialize (Hlogs (start empty_session)). vm_compute in Hlogs.
  injection Hlogs as <- <-. reflexivity.
Defined.

(** ** The selection of the upload tab *)

Lemma value_in_None N : value_in VNone N = false.
Proof. induction N as [| name N IH]; [ reflexivity | exact IH ]. Qed.

(** The overlap count of a recipe: the number of slots 1 to 20 whose
    ingredient is one of the normalised names. *)
Lemma match_count_counts_slots items N :
  match_count (VDict items) N =
  Ok (length (filter (fun i =>
                match dict_lookup ("strIngredient" ++ string_of_nat i) items with
                | Some ingredient => value_in ingredient N
                | None => false
                end) ingredient_slots)).
Proof.
  unfold match_count. induction ingredient_slots as [| i slots IH]; [ reflexivity | ].
  cbn [count_matches filter py_get].
  destruct (dict_lookup ("strIngredient" ++ string_of_nat i) items) as [ingredient | ];
    cbn [obind]; rewrite IH; cbn [obind].
  - now destruct (value_in ingredient N).
  - now rewrite value_in_None.
Qed.

Lemma split_cases {A} (pre pre' : list A) a b post post' :
  (pre ++ a :: post = pre' ++ b :: post')%list ->
  (pre = pre' /\ a = b /\ post = post') \/ In a pre' \/ In b pre.
Proof.
  revert pre'. induction pre as [| x pre IH]; intros [| y pre']; cbn; intros Heq.
  - injection Heq as -> ->. now left.
  - injection Heq as -> _. right. left. now left.
  - injection Heq as -> _. right. right. now left.
  - injection Heq as -> Heq. destruct (IH _ Heq) as [(-> & -> & ->) | [Hin | Hin]]; auto.
Qed.

(** C1. The upload tab never stores a candidate whose overlap count is 0:
    after [select_best_match] the session is the one it started from, or
    it holds the details of a candidate of the list whose count is
    positive.  When every count is 0 nothing is stored and, if the run
    completes, a message saying no recipe was found is written; on the
    empty list that message is all that happens. *)
Theorem best_match_never_selects_zero_overlap (H : Host) (C : list value) (N : list string)
  (st : State) :
  (session (snd (select_best_match H (VList C) N st)) = session st \/
   exists c details n,
     In c C /\ score H N c = Ok (Some (details, n)) /\ 0 < n /\
     select_best_match H (VList C) N st
     = (Ok tt, mkState (stored details (session st))
                       (ui (snd (select_best_match H (VList C) N st)))
                       (calls (snd (select_best_match H (VList C) N st))))) /\
  ((forall c d n, In c C -> score H N c = Ok (Some (d, n)) -> n = 0) ->
   session (snd (select_best_match H (VList C) N st)) = session st /\
   (fst (select_best_match H (VList C) N st) = Ok tt ->
    exists msg, In (UiWrite msg) (ui (snd (select_best_match H (VList C) N st))) /\
                (msg = no_match_message \/
                 msg = "No recipes found. Time to get creative in the kitchen!"))) /\
  select_best_match H (VList []) N st
  = (Ok tt, extend st [UiWrite "No recipes found. Time to get creative in the kitchen!"] []).
Proof.
  split; [ | split ].
  - destruct C as [| c0 rest].
    + left. now rewrite select_best_match_empty.
    + destruct (select_best_match_run H N (c0 :: rest) st) as (evs & cs & ->); [ discriminate | ].
      destruct (result (best_match_loop H (c0 :: rest) N VNone 0)) as [[best count] | e] eqn:Hrun;
        [ | now left ].
      destruct (truthy best) eqn:Hbest; [ | now left ].
      destruct (best_match_loop_first_best _ _ _ _ _ _ _ Hrun)
        as [(-> & _) | (pre & c & post & Heq & Hc & Hgt & _)]; [ discriminate | ].
      right. exists c, best, count. repeat split; auto.
      rewrite Heq. apply in_or_app. right. now left.
  - apply select_best_match_no_match.
  - apply select_best_match_empty.
Qed.

Lemma best_match_never_selects_zero_overlap_witness :
  session (snd (select_best_match kitchen (VList [stub "4" "Plain Rice"; stub "6" "Boiled Egg"])
                  ["Chicken"] (start (session_with chicken_soup))))
  = session_with chicken_soup.
Proof.
  destruct (best_match_never_selects_zero_overlap kitchen
              [stub "4" "Plain Rice"; stub "6" "Boiled Egg"] ["Chicken"]
              (start (session_with chicken_soup))) as (_ & Hzero & _).
  apply Hzero.
  intros c d n [<- | [<- | []]] Hscore; vm_compute in Hscore; now injection Hscore as _ <-.
Defined.

(** C6, as the specification words it, fails: rice and egg tie at the
    greatest count, 0, for the single ingredient Chicken, and neither is
    stored. *)
Lemma first_of_ties_is_selected_fails : ~ first_of_ties_is_selected.
Proof.
  intros Hspec.
  specialize (Hspec kitchen ["Chicken"] [] (stub "4" "Plain Rice") []
                (stub "6" "Boiled Egg") [] plain_rice boiled_egg 0 (start empty_session)).
  cbv zeta in Hspec.
  assert (Hstored : session (snd (select_best_match kitchen
                       (VList ([] ++ stub "4" "Plain Rice" :: [] ++ stub "6" "Boiled Egg" :: []))
                       ["Chicken"] (start empty_session)))
                    = stored plain_rice (session (start empty_session))).
  { apply Hspec.
    - vm_compute; reflexivity.
    - vm_compute; reflexivity.
    - intros c d n [<- | [<- | []]] Hscore; vm_compute in Hscore;
        injection Hscore as _ <-; lia.
    - intros c d n []. }
  vm_compute in Hstored. discriminate.
Qed.

(** A tie at a positive count is not enough either when the loop does not
    reach its end: soup and salted chicken tie at 1, the greatest count,
    but the lookup of recipe 5, after them, raises; the run raises with
    it and nothing is stored. *)
Lemma positive_tie_is_lost_when_a_lookup_raises :
  score kitchen ["Chicken"] (stub "2" "Chicken Soup") = Ok (Some (chicken_soup, 1)) /\
  score kitchen ["Chicken"] (stub "3" "Salted Chicken") = Ok (Some (salted_chicken, 1)) /\
  score kitchen ["Chicken"] (stub "5" "Nothing") = Raise IndexError /\
  select_best_match kitchen
    (VList [stub "2" "Chicken Soup"; stub "3" "Salted Chicken"; stub "5" "Nothing"])
    ["Chicken"] (start empty_session)
  = (Raise IndexError,
     mkState empty_session [UiSuccess unlocked_message]
             [HttpGet (api ++ "lookup.php?i=2"); HttpGet (api ++ "lookup.php?i=3");
              HttpGet (api ++ "lookup.php?i=5")]).
Proof. repeat split. Qed.

(** C6, amended. On a list every candidate of which can be scored (it has
    an identifier, its lookup returns and the overlap of the details it
    returns can be counted, so that the loop reaches its end), of two
    candidates that tie at the greatest overlap count, this count being
    positive, the first one is stored: when [c1] and [c2] both score
    [k > 0], nobody scores more and nobody before [c1] scores as much, the
    run completes and the best recipe is the details of [c1]. *)
Theorem first_of_positive_ties_is_selected (H : Host) (N : list string)
  (pre : list value) (c1 : value) (mid : list value) (c2 : value) (post : list value)
  (d1 d2 : value) (k : nat) (st : State) :
  (forall c, In c (pre ++ c1 :: mid ++ c2 :: post)%list -> exists s, score H N c = Ok s) ->
  score H N c1 = Ok (Some (d1, k)) ->
  score H N c2 = Ok (Some (d2, k)) ->
  (forall c d n, In c (pre ++ c1 :: mid ++ c2 :: post)%list ->
                 score H N c = Ok (Some (d, n)) -> n <= k) ->
  (forall c d n, In c pre -> score H N c = Ok (Some (d, n)) -> n < k) ->
  0 < k ->
  fst (select_best_match H (VList (pre ++ c1 :: mid ++ c2 :: post)) N st) = Ok tt /\
  session (snd (select_best_match H (VList (pre ++ c1 :: mid ++ c2 :: post)) N st))
  = stored d1 (session st).
Proof.
  intros Hscored Hc1 Hc2 Hmax Hpre Hpos.
  set (recipes := (pre ++ c1 :: mid ++ c2 :: post)%list) in *.
  assert (Hin1 : In c1 recipes) by (apply in_or_app; right; now left).
  destruct (select_best_match_run H N recipes st) as (evs & cs & ->).
  { intros Hnil. rewrite Hnil in Hin1. contradiction. }
  destruct (best_match_loop_returns H N recipes Hscored VNone 0) as [[best count] Hrun].
  rewrite Hrun.
  destruct (best_match_loop_first_best _ _ _ _ _ _ _ Hrun)
    as [(_ & _ & Hle) | (pre' & c & post' & Heq & Hc & Hgt & Hbefore & Hafter)].
  { specialize (Hle _ _ _ Hin1 Hc1). lia. }
  assert (Hcount : count <= k).
  { eapply Hmax; [ | exact Hc ]. rewrite Heq. apply in_or_app. right. now left. }
  assert (Hk : k <= count).
  { pose proof Hin1 as Hin. rewrite Heq in Hin.
    apply in_app_or in Hin. destruct Hin as [Hin | [<- | Hin]].
    - specialize (Hbefore _ _ _ Hin Hc1). lia.
    - rewrite Hc1 in Hc. injection Hc as _ <-. lia.
    - exact (Hafter _ _ _ Hin Hc1). }
  destruct (split_cases _ _ _ _ _ _ Heq) as [(_ & Hsame & _) | [Hin | Hin]].
  - subst c. rewrite Hc1 in Hc. injection Hc as <- <-.
    destruct (score_truthy _ _ _ _ _ Hc1) as [-> _]. now split.
  - specialize (Hbefore _ _ _ Hin Hc1). lia.
  - specialize (Hpre _ _ _ Hin Hc). lia.
Qed.

Lemma first_of_positive_ties_is_selected_witness :
  fst (select_best_match kitchen
         (VList ([stub "4" "Plain Rice"] ++ stub "2" "Chicken Soup" :: [stub "1" "Broth"]
                 ++ stub "3" "Salted Chicken" :: []))
         ["Chicken"] (start empty_session)) = Ok tt /\
  session (snd (select_best_match kitchen
         (VList ([stub "4" "Plain Rice"] ++ stub "2" "Chicken Soup" :: [stub "1" "Broth"]
                 ++ stub "3" "Salted Chicken" :: []))
         ["Chicken"] (start empty_session)))
  = stored chicken_soup (session (start empty_session)).
Proof.
  apply (first_of_positive_ties_is_selected kitchen ["Chicken"] [stub "4" "Plain Rice"]
           (stub "2" "Chicken Soup") [stub "1" "Broth"] (stub "3" "Salted Chicken") []
           chicken_soup salted_chicken 1).
  - intros c [<- | [<- | [<- | [<- | []]]]]; eexists; vm_compute; reflexivity.
  - vm_compute; reflexivity.
  - vm_compute; reflexivity.
  - intros c d n [<- | [<- | [<- | [<- | []]]]] Hscore; vm_compute in Hscore;
      try discriminate; injection Hscore as _ <-; lia.
  - intros c d n [<- | []] Hscore; vm_compute in Hscore; injection Hscore as _ <-; lia.
  - lia.
Defined.

(** ** Failures and the stored selection *)

(** C4, as the specification words it, fails: in the upload tab the lookup
    of recipe 1 fails with status 500, which is reported, and the run goes
    on to store chicken soup in a session that held no recipe. *)
Lemma failure_short_circuits_every_flow_fails : ~ failure_short_circuits_every_flow.
Proof.
  intros Hspec. destruct (Hspec kitchen) as [Hupload _].
  specialize (Hupload (Some ["Chicken"]) true empty_session).
  assert (Hreported : failure_reported
            (snd (upload_products_tab kitchen (Some ["Chicken"]) true (start empty_session)))).
  { exists "API request failed with status code 500". split.
    - vm_compute. do 5 right. now left.
    - right. exists (mkResponse 500 None "Internal Server Error"). reflexivity. }
  specialize (Hupload Hreported). vm_compute in Hupload. discriminate.
Qed.

(** The same run, spelled out. *)
Lemma upload_survives_a_failed_lookup :
  result (get_recipe_details kitchen (VStr "1")) = Ok VNone /\
  Failure (get_recipe_details kitchen (VStr "1")) /\
  best_recipe (session (snd (upload_products_tab kitchen (Some ["Chicken"]) true
                               (start empty_session)))) = Some chicken_soup.
Proof.
  split; [ reflexivity | split; [ | reflexivity ] ].
  exists "API request failed with status code 500",
         [UiError "API request failed with status code 500"],
         [HttpGet (api ++ "lookup.php?i=1")].
  split; [ | now left ].
  intros st. unfold extend. reflexivity.
Qed.

(** In the filter tab a failed lookup of the first candidate is stored as
    it comes: the recipe held by the session is replaced by [None]. *)
Lemma filter_stores_a_failed_lookup :
  best_recipe (session (snd (select_filters_tab kitchen 1 0 true
                               (start (session_with plain_rice))))) = Some VNone.
Proof. reflexivity. Qed.

(** C4, amended. A Failure of a fetch made before the selection leaves the
    session as it was: of [fetch_ingredient_list] or
    [search_recipes_by_ingredients] in the upload tab, of
    [fetch_category_list], [fetch_area_list] or
    [search_recipes_by_category_and_area] in the filter tab.  In the upload
    tab a Failure of [get_recipe_details] only drops the candidate it was
    called for (the loop goes on as if the candidate were not in the
    list), so the session is left as it was when the lookup fails for
    every candidate. *)
Theorem failure_before_selection_short_circuits (H : Host) (file : DataFrame)
  (picked_category picked_area : nat) (pressed : bool) (st : State) :
  (Failure (fetch_ingredient_list H) ->
   session (snd (upload_products_tab H (Some file) pressed st)) = session st) /\
  (forall R names,
      result (fetch_ingredient_list H) = Ok R ->
      normalize_ingredients (unique file) R = Ok names ->
      Failure (search_recipes_by_ingredients H (fst names)) ->
      session (snd (upload_products_tab H (Some file) pressed st)) = session st) /\
  (forall R names C,
      result (fetch_ingredient_list H) = Ok R ->
      normalize_ingredients (unique file) R = Ok names ->
      result (search_recipes_by_ingredients H (fst names)) = Ok (VList C) ->
      (forall c recipe_id, In c C -> getitem c "idMeal" = Ok recipe_id ->
                           Failure (get_recipe_details H recipe_id)) ->
      session (snd (upload_products_tab H (Some file) pressed st)) = session st) /\
  (Failure (fetch_category_list H) \/ Failure (fetch_area_list H) ->
   session (snd (select_filters_tab H picked_category picked_area pressed st)) = session st) /\
  (forall categories areas category_options area_options,
      result (fetch_category_list H) = Ok categories ->
      result (fetch_area_list H) = Ok areas ->
      list_concat [VStr "All"] categories = Ok category_options ->
      list_concat [VStr "All"] areas = Ok area_options ->
      Failure (search_recipes_by_category_and_area H
                 (selectbox category_options picked_category)
                 (selectbox area_options picked_area)) ->
      session (snd (select_filters_tab H picked_category picked_area pressed st)) = session st) /\
  (forall N c rest recipe_id best count,
      getitem c "idMeal" = Ok recipe_id ->
      Failure (get_recipe_details H recipe_id) ->
      result (best_match_loop H (c :: rest) N best count)
      = result (best_match_loop H rest N best count)).
Proof.
  repeat split.
  - intros Hfail. apply upload_products_tab_preserves.
    intros R names recipes HR Htruthy _ _ _.
    rewrite (Failure_result _ Hfail) in HR. injection HR as <-. discriminate.
  - intros R names HR Hnames Hfail. apply upload_products_tab_preserves.
    intros R' names' recipes HR' _ Hnames' _ Hrecipes.
    rewrite HR in HR'. injection HR' as <-.
    rewrite Hnames in Hnames'. injection Hnames' as <-.
    rewrite (Failure_result _ Hfail) in Hrecipes. injection Hrecipes as <-.
    unfold select_best_match. cbn [truthy]. preserves_logger.
  - intros R names C HR Hnames Hsearch Hfail. apply upload_products_tab_preserves.
    intros R' names' recipes HR' _ Hnames' _ Hrecipes.
    rewrite HR in HR'. injection HR' as <-.
    rewrite Hnames in Hnames'. injection Hnames' as <-.
    rewrite Hsearch in Hrecipes. injection Hrecipes as <-.
    intros st'. apply select_best_match_no_match.
    intros c d n Hin Hscore. exfalso.
    destruct (score_truthy _ _ _ _ _ Hscore) as [Htruthy _].
    unfold score in Hscore.
    destruct (getitem c "idMeal") as [recipe_id | e] eqn:Hid; cbn [obind] in Hscore;
      [ | discriminate ].
    rewrite (Failure_result _ (Hfail _ _ Hin Hid)) in Hscore. discriminate.
  - intros Hfail. apply select_filters_tab_preserves.
    intros categories areas category_options area_options recipes Hc Ha Hco Hao _.
    destruct Hfail as [Hfail | Hfail].
    + rewrite (Failure_result _ Hfail) in Hc. injection Hc as <-. discriminate.
    + rewrite (Failure_result _ Hfail) in Ha. injection Ha as <-. discriminate.
  - intros categories areas category_options area_options Hc Ha Hco Hao Hfail.
    apply select_filters_tab_preserves.
    intros categories' areas' category_options' area_options' recipes Hc' Ha' Hco' Hao' Hrecipes.
    rewrite Hc in Hc'. injection Hc' as <-. rewrite Ha in Ha'. injection Ha' as <-.
    rewrite Hco in Hco'. injection Hco' as <-. rewrite Hao in Hao'. injection Hao' as <-.
    rewrite (Failure_result _ Hfail) in Hrecipes. injection Hrecipes as <-.
    unfold select_first. cbn [truthy]. preserves_logger.
  - intros N c rest recipe_id best count Hid Hfail.
    rewrite best_match_loop_step. unfold score.
    rewrite Hid. cbn [obind]. rewrite (Failure_result _ Hfail). reflexivity.
Qed.

Lemma failure_before_selection_short_circuits_witness :
  session (snd (upload_products_tab offline (Some ["Chicken"]) true
                  (start (session_with plain_rice)))) = session_with plain_rice /\
  session (snd (select_filters_tab offline 0 0 true
                  (start (session_with plain_rice)))) = session_with plain_rice.
Proof.
  destruct (failure_before_selection_short_circuits offline ["Chicken"] 0 0 true
              (start (session_with plain_rice))) as (Hingredients & _ & _ & Hfilters & _ & _).
  split.
  - apply Hingredients.
    exists "API request failed with status code 404",
           [UiError "API request failed with status code 404"],
           [HttpGet (api ++ "list.php?i=list")].
    split; [ intros st; reflexivity | now left ].
  - apply Hfilters. left.
    exists "API request failed with status code 404",
           [UiError "API request failed with status code 404"],
           [HttpGet (api ++ "categories.php")].
    split; [ intros st; reflexivity | now left ].
Defined.

(** * Further properties of the program *)

(** ** Transport and decoding failures *)

Ltac fetch_fails Hget Hcode :=
  run_fetch Hget; rewrite Hcode; cbn; rewrite ?app_nil_r; reflexivity.

(** X1. A response whose status is not 200 makes each of the six fetch
    functions report "API request failed with status code" followed by the
    status and return [None], after that one request; the body is not
    read.  The search by ingredients also shows the text of the response,
    drops the candidates found for the ingredients before and asks for
    none of the ingredients after. *)
Theorem fetch_status_failure (H : Host) :
  (forall r, requests_get H (api ++ "list.php?i=list") = Ok r -> status_code r <> 200%Z ->
     logs (fetch_ingredient_list H) (Ok VNone) [UiError (status_error r)]
          [HttpGet (api ++ "list.php?i=list")]) /\
  (forall r, requests_get H (api ++ "categories.php") = Ok r -> status_code r <> 200%Z ->
     logs (fetch_category_list H) (Ok VNone) [UiError (status_error r)]
          [HttpGet (api ++ "categories.php")]) /\
  (forall r, requests_get H (api ++ "list.php?a=list") = Ok r -> status_code r <> 200%Z ->
     logs (fetch_area_list H) (Ok VNone) [UiError (status_error r)]
          [HttpGet (api ++ "list.php?a=list")]) /\
  (forall ingredient rest results r,
     requests_get H (filter_url ingredient) = Ok r -> status_code r <> 200%Z ->
     logs (search_loop H (ingredient :: rest) results) (Ok VNone)
          [UiError (status_error r); UiText (text r)] [HttpGet (filter_url ingredient)]) /\
  (forall category area r,
     requests_get H (api ++ "filter.php?c=" ++ py_str H category ++ "&a=" ++ py_str H area) = Ok r ->
     status_code r <> 200%Z ->
     logs (search_recipes_by_category_and_area H category area) (Ok VNone)
          [UiError (status_error r)]
          [HttpGet (api ++ "filter.php?c=" ++ py_str H category ++ "&a=" ++ py_str H area)]) /\
  (forall recipe_id r,
     requests_get H (lookup_url H recipe_id) = Ok r -> status_code r <> 200%Z ->
     logs (get_recipe_details H recipe_id) (Ok VNone) [UiError (status_error r)]
          [HttpGet (lookup_url H recipe_id)]).
Proof.
  repeat split.
  - intros r Hget Hcode%Z.eqb_neq. unfold fetch_ingredient_list. fetch_fails Hget Hcode.
  - intros r Hget Hcode%Z.eqb_neq. unfold fetch_category_list. fetch_fails Hget Hcode.
  - intros r Hget Hcode%Z.eqb_neq. unfold fetch_area_list. fetch_fails Hget Hcode.
  - intros ingredient rest results r Hget Hcode%Z.eqb_neq. unfold filter_url in *.
    cbn [search_loop]. unfold st_text. run_fetch Hget. rewrite Hcode. cbn.
    rewrite <- !app_assoc. reflexivity.
  - intros category area r Hget Hcode%Z.eqb_neq.
    unfold search_recipes_by_category_and_area. fetch_fails Hget Hcode.
  - intros recipe_id r Hget Hcode%Z.eqb_neq. unfold lookup_url in *.
    unfold get_recipe_details. fetch_fails Hget Hcode.
Qed.

Lemma fetch_status_failure_witness :
  logs (fetch_ingredient_list offline) (Ok VNone)
       [UiError "API request failed with status code 404"]
       [HttpGet (api ++ "list.php?i=list")] /\
  logs (search_loop kitchen ["Tofu"; "Chicken"] [stub "2" "Chicken Soup"]) (Ok VNone)
       [UiError "API request failed with status code 404"; UiText "Not Found"]
       [HttpGet (filter_url "Tofu")] /\
  logs (get_recipe_details kitchen (VStr "1")) (Ok VNone)
       [UiError "API request failed with status code 500"]
       [HttpGet (lookup_url kitchen (VStr "1"))].
Proof.
  destruct (fetch_status_failure offline) as (Hlist & _).
  destruct (fetch_status_failure kitchen) as (_ & _ & _ & Hsearch & _ & Hlookup).
  split; [ | split ].
  - apply (Hlist not_found); [ reflexivity | discriminate ].
  - apply (Hsearch "Tofu" ["Chicken"] [stub "2" "Chicken Soup"] not_found);
      [ reflexivity | discriminate ].
  - apply (Hlookup (VStr "1") (mkResponse 500 None "Internal Server Error"));
      [ reflexivity | discriminate ].
Defined.

(** X2. A 200 response whose body is not JSON makes each of the six fetch
    functions report "Error decoding JSON response" and return [None]; the
    search by ingredients also shows the text of the response and drops
    what it had found. *)
Theorem fetch_decode_failure (H : Host) :
  (forall page, requests_get H (api ++ "list.php?i=list") = Ok (mkResponse 200 None page) ->
     logs (fetch_ingredient_list H) (Ok VNone) [UiError decode_error]
          [HttpGet (api ++ "list.php?i=list")]) /\
  (forall page, requests_get H (api ++ "categories.php") = Ok (mkResponse 200 None page) ->
     logs (fetch_category_list H) (Ok VNone) [UiError decode_error]
          [HttpGet (api ++ "categories.php")]) /\
  (forall page, requests_get H (api ++ "list.php?a=list") = Ok (mkResponse 200 None page) ->
     logs (fetch_area_list H) (Ok VNone) [UiError decode_error]
          [HttpGet (api ++ "list.php?a=list")]) /\
  (forall ingredient rest results page,
     requests_get H (filter_url ingredient) = Ok (mkResponse 200 None page) ->
     logs (search_loop H (ingredient :: rest) results) (Ok VNone)
          [UiError decode_error; UiText page] [HttpGet (filter_url ingredient)]) /\
  (forall category area page,
     requests_get H (api ++ "filter.php?c=" ++ py_str H category ++ "&a=" ++ py_str H area)
     = Ok (mkResponse 200 None page) ->
     logs (search_recipes_by_category_and_area H category area) (Ok VNone)
          [UiError decode_error]
          [HttpGet (api ++ "filter.php?c=" ++ py_str H category ++ "&a=" ++ py_str H area)]) /\
  (forall recipe_id page,
     requests_get H (lookup_url H recipe_id) = Ok (mkResponse 200 None page) ->
     logs (get_recipe_details H recipe_id) (Ok VNone) [UiError decode_error]
          [HttpGet (lookup_url H recipe_id)]).
Proof.
  repeat split.
  - intros page Hget. unfold fetch_ingredient_list. run_fetch Hget. reflexivity.
  - intros page Hget. unfold fetch_category_list. run_fetch Hget. reflexivity.
  - intros page Hget. unfold fetch_area_list. run_fetch Hget. reflexivity.
  - intros ingredient rest results page Hget. unfold filter_url in *.
    cbn [search_loop]. unfold st_text. run_fetch Hget. cbn.
    rewrite <- !app_assoc. reflexivity.
  - intros category area page Hget.
    unfold search_recipes_by_category_and_area. run_fetch Hget. reflexivity.
  - intros recipe_id page Hget. unfold lookup_url in *.
    unfold get_recipe_details. run_fetch Hget. reflexivity.
Qed.

Lemma fetch_decode_failure_witness :
  logs (fetch_category_list garbled) (Ok VNone) [UiError decode_error]
       [HttpGet (api ++ "categories.php")] /\
  logs (search_loop garbled ["Chicken"; "Salt"] [stub "2" "Chicken Soup"]) (Ok VNone)
       [UiError decode_error; UiText "<html>Down for maintenance</html>"]
       [HttpGet (filter_url "Chicken")].
Proof.
  destruct (fetch_decode_failure garbled) as (_ & Hcategories & _ & Hsearch & _).
  split.
  - apply (Hcategories "<html>Down for maintenance</html>"). reflexivity.
  - apply (Hsearch "Chicken" ["Salt"] [stub "2" "Chicken Soup"]
                   "<html>Down for maintenance</html>"). reflexivity.
Defined.

(** ** The search by ingredients *)

Section Search.

Variable H : Host.

(** A turn of the loop on an ingredient the catalogue answers for: the
    candidates found are appended and the loop goes on. *)
Lemma search_loop_found ingredient rest results found st :
  answers_with H ingredient found ->
  search_loop H (ingredient :: rest) results st =
  search_loop H rest (results ++ found) (extend st [] [HttpGet (filter_url ingredient)]).
Proof.
  intros (items & page & Hget & Hmeals). unfold filter_url in *.
  cbn [search_loop].
  unfold http_get, try_except, bind, record_call, lift, ret, extend.
  cbn [fst snd session ui calls]. rewrite Hget. cbn [status_code json text].
  cbn. rewrite app_nil_r.
  destruct Hmeals as [-> | [-> ->]].
  - destruct found as [| c found]; cbn; [ now rewrite app_nil_r | reflexivity ].
  - cbn. now rewrite app_nil_r.
Qed.

(** A turn of the loop on an ingredient whose request fails: the loop
    stops and what was found is dropped. *)
Lemma search_loop_stops ingredient rest results r :
  requests_get H (filter_url ingredient) = Ok r ->
  status_code r <> 200%Z \/ json r = None ->
  exists msg,
    logs (search_loop H (ingredient :: rest) results) (Ok VNone)
         [UiError msg; UiText (text r)] [HttpGet (filter_url ingredient)].
Proof.
  intros Hget Hbad. unfold filter_url in *.
  destruct (status_code r =? 200)%Z eqn:Hcode.
  - destruct Hbad as [Hne | Hjson]; [ now apply Z.eqb_eq in Hcode | ].
    exists decode_error. cbn [search_loop]. unfold st_text. run_fetch Hget.
    rewrite Hcode. unfold response_json. rewrite Hjson. cbn.
    rewrite <- !app_assoc. reflexivity.
  - exists (status_error r). cbn [search_loop]. unfold st_text. run_fetch Hget.
    rewrite Hcode. cbn. rewrite <- !app_assoc. reflexivity.
Qed.

Lemma search_loop_unions ingredients lists :
  Forall2 (answers_with H) ingredients lists ->
  forall results rest st,
    search_loop H (ingredients ++ rest) results st =
    search_loop H rest (results ++ concat lists)
      (extend st [] (map (fun ingredient => HttpGet (filter_url ingredient)) ingredients)).
Proof.
  induction 1 as [| ingredient found ingredients lists Hfound _ IH]; intros results rest st.
  - cbn. now rewrite extend_nil, app_nil_r.
  - cbn [app]. rewrite (search_loop_found _ _ _ _ _ Hfound), IH.
    rewrite extend_extend. cbn [concat map app]. now rewrite <- app_assoc.
Qed.

End Search.

(** X3. When the catalogue answers for every ingredient,
    [search_recipes_by_ingredients] makes one request per ingredient, in
    order, and returns the candidates of all the answers put end to end:
    an ingredient without any recipe adds nothing, a recipe found for two
    ingredients is there twice, and for no ingredient at all the result is
    the empty list, without a request. *)
Theorem search_recipes_by_ingredients_unions (H : Host) (ingredients : list string)
  (lists : list (list value)) :
  Forall2 (answers_with H) ingredients lists ->
  logs (search_recipes_by_ingredients H ingredients) (Ok (VList (concat lists))) []
       (map (fun ingredient => HttpGet (filter_url ingredient)) ingredients).
Proof.
  intros Hall st. unfold search_recipes_by_ingredients.
  rewrite <- (app_nil_r ingredients) at 1.
  rewrite (search_loop_unions H _ _ Hall). reflexivity.
Qed.

Lemma search_recipes_by_ingredients_unions_witness :
  logs (search_recipes_by_ingredients pantry ["Chicken"; "Rice"; "Salt"])
       (Ok (VList (concat [[stub "2" "Chicken Soup"; stub "3" "Salted Chicken"]; [];
                           [stub "3" "Salted Chicken"]])))
       []
       (map (fun ingredient => HttpGet (filter_url ingredient)) ["Chicken"; "Rice"; "Salt"]).
Proof.
  apply (search_recipes_by_ingredients_unions pantry).
  repeat constructor.
  - eexists _, "". split; [ reflexivity | left; reflexivity ].
  - eexists _, "". split; [ reflexivity | right; split; reflexivity ].
  - eexists _, "". split; [ reflexivity | left; reflexivity ].
Defined.

(** X4. The search stops at the first ingredient whose request fails (a
    status other than 200, or a body that is not JSON): it reports the
    failure, shows the text of the response and returns [None], whatever
    was found for the ingredients before; the ingredients after are not
    asked for. *)
Theorem search_recipes_by_ingredients_stops_at_failure (H : Host)
  (before : list string) (lists : list (list value)) (ingredient : string)
  (after : list string) (r : Response) :
  Forall2 (answers_with H) before lists ->
  requests_get H (filter_url ingredient) = Ok r ->
  status_code r <> 200%Z \/ json r = None ->
  exists msg,
    logs (search_recipes_by_ingredients H (before ++ ingredient :: after)) (Ok VNone)
         [UiError msg; UiText (text r)]
         (map (fun i => HttpGet (filter_url i)) (before ++ [ingredient])).
Proof.
  intros Hbefore Hget Hbad.
  destruct (search_loop_stops H ingredient after (concat lists) r Hget Hbad) as [msg Hstop].
  exists msg. intros st. unfold search_recipes_by_ingredients.
  rewrite (search_loop_unions H _ _ Hbefore). cbn [app]. rewrite Hstop.
  rewrite extend_extend, map_app. reflexivity.
Qed.

Lemma search_recipes_by_ingredients_stops_at_failure_witness :
  exists msg,
    logs (search_recipes_by_ingredients pantry (["Chicken"] ++ "Tofu" :: ["Salt"])) (Ok VNone)
         [UiError msg; UiText (text not_found)]
         (map (fun i => HttpGet (filter_url i)) (["Chicken"] ++ ["Tofu"])).
Proof.
  apply (search_recipes_by_ingredients_stops_at_failure pantry ["Chicken"]
           [[stub "2" "Chicken Soup"; stub "3" "Salted Chicken"]] "Tofu" ["Salt"] not_found).
  - repeat constructor. eexists _, "". split; [ reflexivity | left; reflexivity ].
  - reflexivity.
  - left. discriminate.
Defined.

(** ** The overlap count and the best match *)

(** X5. The overlap count of a recipe is the number of its slots 1 to 20
    whose ingredient is one of the normalised names, so it is at most 20; a
    slot that is missing or [null] counts for nothing and an ingredient
    listed in two slots counts twice.  On details that are not a JSON
    object the count raises an [AttributeError]. *)
Theorem match_count_is_the_number_of_matching_slots (recipe_details : value) (N : list string) :
  match recipe_details with
  | VDict items =>
      exists n,
        match_count recipe_details N = Ok n /\
        n = length (filter (fun i =>
                      match dict_lookup ("strIngredient" ++ string_of_nat i) items with
                      | Some ingredient => value_in ingredient N
                      | None => false
                      end) (seq 1 20)) /\
        n <= 20
  | _ => match_count recipe_details N = Raise AttributeError
  end.
Proof.
  destruct recipe_details; try reflexivity.
  eexists. split; [ apply match_count_counts_slots | ].
  split; [ reflexivity | ].
  etransitivity; [ apply filter_length_le | ].
  unfold ingredient_slots. now rewrite length_seq.
Qed.

Section Maximal.

Variable H : Host.
Variable N : list string.

(** A candidate that can be scored has an identifier, and its lookup
    returns. *)
Lemma score_lookup c s :
  score H N c = Ok s ->
  exists recipe_id details,
    getitem c "idMeal" = Ok recipe_id /\
    result (get_recipe_details H recipe_id) = Ok details /\
    (truthy details = true -> exists n, match_count details N = Ok n).
Proof.
  unfold score. intros Hs.
  destruct (getitem c "idMeal") as [recipe_id | e] eqn:Hid; cbn [obind] in Hs;
    [ | discriminate ].
  destruct (result (get_recipe_details H recipe_id)) as [details | e] eqn:Hdetails;
    cbn [obind] in Hs; [ | discriminate ].
  exists recipe_id, details. repeat split; auto.
  intros Ht. rewrite Ht in Hs.
  destruct (match_count details N) as [n | e]; [ now exists n | discriminate ].
Qed.

Lemma best_match_loop_lookups recipes :
  (forall c, In c recipes -> exists s, score H N c = Ok s) ->
  exists ids,
    omap (fun c => getitem c "idMeal") recipes = Ok ids /\
    forall best count, exists evs,
      logs (best_match_loop H recipes N best count)
           (result (best_match_loop H recipes N best count)) evs
           (map (fun recipe_id => HttpGet (lookup_url H recipe_id)) ids).
Proof.
  induction recipes as [| c rest IH]; intros Hall.
  - exists []. split; [ reflexivity | ]. intros best count. exists []. apply logs_ret.
  - destruct IH as (ids & Hids & Hrest); [ intros c' Hc'; apply Hall; now right | ].
    destruct (Hall c (or_introl eq_refl)) as [s Hs].
    destruct (score_lookup _ _ Hs) as (recipe_id & details & Hid & Hdetails & Hcount).
    exists (recipe_id :: ids). split; [ cbn; now rewrite Hid, Hids | ].
    intros best count.
    destruct (logger_logs _ (logger_get_recipe_details H recipe_id)) as (evs1 & cs1 & Hlookup).
    pose proof (get_recipe_details_calls H _ _ _ _ Hlookup) as ->.
    rewrite Hdetails in Hlookup.
    assert (Hstep : forall best' count', exists evs,
               logs (recipe_id' <- lift (getitem c "idMeal") ;;
                     recipe_details <- get_recipe_details H recipe_id' ;;
                     best_match_loop H rest N best' count')
                    (result (best_match_loop H rest N best' count')) evs
                    (map (fun recipe_id => HttpGet (lookup_url H recipe_id)) (recipe_id :: ids))).
    { intros best' count'. destruct (Hrest best' count') as [evs2 Hloop].
      exists (evs1 ++ evs2)%list. intros st. unfold bind, lift. rewrite Hid, Hlookup, Hloop.
      now rewrite extend_extend. }
    rewrite best_match_loop_step, Hs.
    cbn [best_match_loop].
    destruct (truthy details) eqn:Ht.
    + destruct (Hcount eq_refl) as [n Hn].
      assert (s = Some (details, n)) as ->.
      { unfold score in Hs. rewrite Hid in Hs. cbn [obind] in Hs.
        rewrite Hdetails in Hs. cbn [obind] in Hs. rewrite Ht, Hn in Hs.
        cbn [obind] in Hs. now injection Hs as <-. }
      destruct (count <? n)%nat eqn:Hlt.
      * destruct (Hstep details n) as [evs Hrun]. exists evs. intros st.
        specialize (Hrun st). unfold bind, lift in *. rewrite Hid in *.
        rewrite Hlookup in *. rewrite Ht, Hn, Hlt. exact Hrun.
      * destruct (Hstep best count) as [evs Hrun]. exists evs. intros st.
        specialize (Hrun st). unfold bind, lift in *. rewrite Hid in *.
        rewrite Hlookup in *. rewrite Ht, Hn, Hlt. exact Hrun.
    + assert (s = None) as ->.
      { unfold score in Hs. rewrite Hid in Hs. cbn [obind] in Hs.
        rewrite Hdetails in Hs. cbn [obind] in Hs. rewrite Ht in Hs. now injection Hs as <-. }
      destruct (Hstep best count) as [evs Hrun]. exists evs. intros st.
      specialize (Hrun st). unfold bind, lift in *. rewrite Hid in *.
      rewrite Hlookup in *. rewrite Ht. exact Hrun.
Qed.

End Maximal.

(** X6. When every candidate can be scored the selection of the upload tab
    completes, and it stores a recipe exactly when some candidate has a
    positive overlap count: either every count is 0 and the session is left
    as it was, or the recipe stored is a candidate's whose count is
    positive and not exceeded by any candidate. *)
Theorem best_match_is_maximal (H : Host) (C : list value) (N : list string) (st : State) :
  (forall c, In c C -> exists s, score H N c = Ok s) ->
  fst (select_best_match H (VList C) N st) = Ok tt /\
  ((session (snd (select_best_match H (VList C) N st)) = session st /\
    forall c d n, In c C -> score H N c = Ok (Some (d, n)) -> n = 0)
   \/
   exists c d n,
     In c C /\ score H N c = Ok (Some (d, n)) /\ 0 < n /\
     session (snd (select_best_match H (VList C) N st)) = stored d (session st) /\
     forall c' d' n', In c' C -> score H N c' = Ok (Some (d', n')) -> n' <= n).
Proof.
  intros Hall. destruct C as [| c0 rest].
  - rewrite select_best_match_empty. split; [ reflexivity | ].
    left. split; [ reflexivity | intros c d n [] ].
  - destruct (select_best_match_run H N (c0 :: rest) st) as (evs & cs & ->); [ discriminate | ].
    destruct (best_match_loop_returns H N _ Hall VNone 0) as [[best count] Hrun].
    rewrite Hrun.
    destruct (best_match_loop_first_best _ _ _ _ _ _ _ Hrun)
      as [(-> & -> & Hle) | (pre & c & post & Heq & Hc & Hgt & Hpre & Hpost)].
    + cbn [truthy]. split; [ reflexivity | ]. left. split; [ reflexivity | ].
      intros c d n Hin Hs. specialize (Hle _ _ _ Hin Hs). lia.
    + destruct (score_truthy _ _ _ _ _ Hc) as [-> _]. split; [ reflexivity | ].
      right. exists c, best, count. repeat split; auto.
      * rewrite Heq. apply in_or_app. right. now left.
      * intros c' d' n' Hin Hs. rewrite Heq in Hin.
        apply in_app_or in Hin. destruct Hin as [Hin | [<- | Hin]].
        -- specialize (Hpre _ _ _ Hin Hs). lia.
        -- rewrite Hc in Hs. injection Hs as _ <-. lia.
        -- exact (Hpost _ _ _ Hin Hs).
Qed.

Lemma best_match_is_maximal_witness :
  fst (select_best_match kitchen
         (VList [stub "4" "Plain Rice"; stub "1" "Broth"; stub "3" "Salted Chicken"])
         ["Chicken"; "Salt"] (start empty_session)) = Ok tt /\
  session (snd (select_best_match kitchen
         (VList [stub "4" "Plain Rice"; stub "1" "Broth"; stub "3" "Salted Chicken"])
         ["Chicken"; "Salt"] (start empty_session)))
  = stored salted_chicken empty_session.
Proof.
  destruct (best_match_is_maximal kitchen
              [stub "4" "Plain Rice"; stub "1" "Broth"; stub "3" "Salted Chicken"]
              ["Chicken"; "Salt"] (start empty_session)) as [Hok _].
  { intros c [<- | [<- | [<- | []]]]; eexists; vm_compute; reflexivity. }
  split; [ exact Hok | reflexivity ].
Defined.

(** X7. The loop of the upload tab looks every candidate up, once per
    occurrence and in the order of the list, whether or not a better
    candidate was already found; it makes no other call. *)
Theorem best_match_loop_looks_up_every_candidate (H : Host) (C : list value) (N : list string)
  (best : value) (count : nat) :
  (forall c, In c C -> exists s, score H N c = Ok s) ->
  exists ids found evs,
    omap (fun c => getitem c "idMeal") C = Ok ids /\
    logs (best_match_loop H C N best count) (Ok found) evs
         (map (fun recipe_id => HttpGet (lookup_url H recipe_id)) ids).
Proof.
  intros Hall.
  destruct (best_match_loop_lookups H N C Hall) as (ids & Hids & Hlogs).
  destruct (best_match_loop_returns H N C Hall best count) as [found Hfound].
  destruct (Hlogs best count) as [evs Hrun]. rewrite Hfound in Hrun.
  now exists ids, found, evs.
Qed.

Lemma best_match_loop_looks_up_every_candidate_witness :
  exists ids found evs,
    omap (fun c => getitem c "idMeal")
         [stub "2" "Chicken Soup"; stub "1" "Broth"; stub "2" "Chicken Soup"] = Ok ids /\
    logs (best_match_loop kitchen
            [stub "2" "Chicken Soup"; stub "1" "Broth"; stub "2" "Chicken Soup"]
            ["Chicken"] VNone 0) (Ok found) evs
         (map (fun recipe_id => HttpGet (lookup_url kitchen recipe_id)) ids).
Proof.
  apply (best_match_loop_looks_up_every_candidate kitchen).
  intros c [<- | [<- | [<- | []]]]; eexists; vm_compute; reflexivity.
Defined.

(** ** The page of the chat tab *)

Section ChatPage.

Variable H : Host.

Lemma show_history_shown messages :
  logs (show_history messages) (Ok tt) (flat_map shown messages) [].
Proof.
  induction messages as [| message rest IH]; cbn [show_history flat_map].
  - apply logs_ret.
  - unfold shown at 1.
    destruct (prefix "Aspiring Chef:" message).
    + change (@nil Call) with (@nil Call ++ [])%list.
      eapply logs_bind_ok; [ apply logs_emit | apply IH ].
    + destruct (prefix "Culinary Luminary:" message).
      * change (@nil Call) with (@nil Call ++ [])%list.
        eapply logs_bind_ok; [ apply logs_emit | apply IH ].
      * change (@nil Call) with (@nil Call ++ [])%list.
        change (flat_map shown rest) with ([] ++ flat_map shown rest)%list.
        eapply logs_bind_ok; [ apply logs_ret | apply IH ].
Qed.

(** The calls of the llama back end are calls to langchain. *)
Lemma generate_response_llama_calls prompt r evs cs :
  logs (generate_response_llama H prompt) r evs cs ->
  forall url, ~ In (HttpGet url) cs.
Proof.
  intros Hlogs url.
  destruct (generate_response_llama_logs H prompt) as (bot & cs' & Hlogs' & _).
  destruct (logs_fun _ _ _ _ _ _ _ Hlogs Hlogs') as (_ & _ & ->).
  specialize (Hlogs' (start empty_session)).
  apply (f_equal (fun p => calls (snd p))) in Hlogs'. cbn [extend snd calls start app] in Hlogs'.
  rewrite <- Hlogs'.
  unfold generate_response_llama, try_except, bind, record_call, lift, ret. cbn.
  destruct (Ollama H "llama2") as [[] | e]; cbn.
  - destruct (llm_invoke H "llama2" prompt); cbn; intros [Hin | [Hin | []]]; discriminate.
  - intros [Hin | []]; discriminate.
Qed.

(** A run without a submission. *)
Lemma chatbot_tab_idle_run picked typed pressed st :
  pressed = false \/ typed = "" ->
  chatbot_tab H picked typed pressed st =
  (Ok tt,
   mkState (mkSession (best_recipe (session st))
                      (Some (match history (session st) with Some h => h | None => [] end))
                      (Some (match user_input (session st) with Some u => u | None => "" end)))
           (ui st ++ [UiTitle "Lumine AI ChatBot"; UiMarkdown chatbot_intro]
              ++ flat_map shown (match history (session st) with Some h => h | None => [] end))
           (calls st)).
Proof.
  intros Hidle.
  assert (Hskip : pressed = true -> negb (typed =? "") = false).
  { intros ->. destruct Hidle as [Hf | ->]; [ discriminate | reflexivity ]. }
  destruct st as [[best hist input] page called].
  unfold chatbot_tab.
  destruct pressed; [ rewrite Hskip by reflexivity | ];
    destruct hist as [h |], input;
    unfold bind, st_title, st_markdown, emit, get_session, set_history,
      set_user_input, put_session, ret; cbn;
    try match goal with
        | |- context [show_history ?h] => rewrite (show_history_shown h)
        end;
    unfold extend; cbn; rewrite ?app_nil_r, <- ?app_assoc; reflexivity.
Qed.

(** A run with a submission. *)
Lemma chatbot_tab_submit_run picked typed st bot cs :
  typed <> "" ->
  logs (generate_response_llama H typed) (Ok bot) [] cs ->
  chatbot_tab H picked typed true st =
  (Ok tt,
   mkState (mkSession (best_recipe (session st))
                      (Some ["Aspiring Chef: " ++ typed;
                             "Culinary Luminary: " ++ py_str H bot])
                      (Some ""))
           (ui st ++ [UiTitle "Lumine AI ChatBot"; UiMarkdown chatbot_intro;
                      UiWrite ("Aspiring Chef: " ++ typed);
                      UiSuccess ("Culinary Luminary: " ++ py_str H bot)])
           (calls st ++ cs)).
Proof.
  intros Hne Hbot.
  assert (Hneb : (typed =? "") = false) by now apply String.eqb_neq.
  destruct st as [[best hist input] page called].
  unfold chatbot_tab. rewrite gemma_is_not_offered, Hneb. cbn [negb].
  destruct hist, input;
    unfold bind, st_title, st_markdown, emit, get_session, set_history,
      set_user_input, history_append, put_session, ret; cbn;
    rewrite Hbot; unfold extend; cbn;
    rewrite app_nil_r, <- !app_assoc; reflexivity.
Qed.

End ChatPage.

(** X8. The chat tab always completes; whatever is picked, typed or
    pressed it leaves the best recipe as it was and sends no request to
    the recipe database. *)
Theorem chat_tab_keeps_the_selection (H : Host) (picked : nat) (typed : string)
  (pressed : bool) (st : State) :
  fst (chatbot_tab H picked typed pressed st) = Ok tt /\
  best_recipe (session (snd (chatbot_tab H picked typed pressed st)))
  = best_recipe (session st) /\
  (forall url, In (HttpGet url) (calls (snd (chatbot_tab H picked typed pressed st))) ->
               In (HttpGet url) (calls st)).
Proof.
  destruct pressed; [ destruct (String.eqb_spec typed "") as [-> | Hne] | ].
  - rewrite chatbot_tab_idle_run by now right. cbn. auto.
  - destruct (generate_response_llama_logs H typed) as (bot & cs & Hlogs & _).
    rewrite (chatbot_tab_submit_run H picked typed st bot _ Hne Hlogs). cbn.
    repeat split. intros url Hin. apply in_app_or in Hin. destruct Hin as [Hin | Hin]; auto.
    now apply (generate_response_llama_calls H _ _ _ _ Hlogs) in Hin.
  - rewrite chatbot_tab_idle_run by now left. cbn. auto.
Qed.

(** X9. Without a submission (the button not pressed, or pressed on an
    empty text) the chat tab keeps the conversation, creating it empty if
    the session had none, and shows it below the title: the lines of the
    user with [st.write], the answers with [st.success], any other line
    not at all.  It calls no back end. *)
Theorem chat_tab_idle_shows_the_conversation (H : Host) (picked : nat) (typed : string)
  (pressed : bool) (st : State) :
  pressed = false \/ typed = "" ->
  fst (chatbot_tab H picked typed pressed st) = Ok tt /\
  history (session (snd (chatbot_tab H picked typed pressed st)))
  = Some (match history (session st) with Some h => h | None => [] end) /\
  ui (snd (chatbot_tab H picked typed pressed st))
  = (ui st ++ [UiTitle "Lumine AI ChatBot"; UiMarkdown chatbot_intro]
       ++ flat_map shown (match history (session st) with Some h => h | None => [] end))%list /\
  calls (snd (chatbot_tab H picked typed pressed st)) = calls st.
Proof.
  intros Hidle. rewrite (chatbot_tab_idle_run H picked typed pressed st Hidle).
  repeat split.
Qed.

Lemma chat_tab_idle_shows_the_conversation_witness :
  fst (chatbot_tab kitchen 0 "" true (start chatted)) = Ok tt /\
  history (session (snd (chatbot_tab kitchen 0 "" true (start chatted))))
  = Some ["Aspiring Chef: Any soup?"; "Culinary Luminary: Try broth."] /\
  ui (snd (chatbot_tab kitchen 0 "" true (start chatted)))
  = [UiTitle "Lumine AI ChatBot"; UiMarkdown chatbot_intro;
     UiWrite "Aspiring Chef: Any soup?"; UiSuccess "Culinary Luminary: Try broth."] /\
  calls (snd (chatbot_tab kitchen 0 "" true (start chatted))) = [].
Proof.
  destruct (chat_tab_idle_shows_the_conversation kitchen 0 "" true (start chatted))
    as (Hok & Hhistory & Hui & Hcalls); [ now right | ].
  rewrite Hok, Hhistory, Hui, Hcalls. repeat split.
Defined.

(** X10. After a submission the page of the chat tab shows, below the
    title, the line of the user with [st.write] and the answer with
    [st.success], also when the answer is the error text of a back end
    that failed; the text field kept in the session is emptied. *)
Theorem chat_tab_shows_the_turn (H : Host) (picked : nat) (typed : string) (st : State) :
  typed <> "" ->
  exists bot,
    result (generate_response_llama H typed) = Ok bot /\
    (forall e, Ollama H "llama2" = Raise e ->
               bot = VStr ("An error occurred: " ++ exn_str H e)) /\
    ui (snd (chatbot_tab H picked typed true st)) =
      (ui st ++ [UiTitle "Lumine AI ChatBot"; UiMarkdown chatbot_intro;
                 UiWrite ("Aspiring Chef: " ++ typed);
                 UiSuccess ("Culinary Luminary: " ++ py_str H bot)])%list /\
    user_input (session (snd (chatbot_tab H picked typed true st))) = Some "".
Proof.
  intros Hne.
  destruct (generate_response_llama_logs H typed) as (bot & cs & Hlogs & _ & Hnew & _).
  exists bot. rewrite (chatbot_tab_submit_run H picked typed st bot _ Hne Hlogs).
  split; [ exact (logs_result _ _ _ _ Hlogs) | ]. split; [ exact Hnew | ]. split; reflexivity.
Qed.

Lemma chat_tab_shows_the_turn_witness :
  exists bot,
    result (generate_response_llama keyless "Any stew?") = Ok bot /\
    (forall e, Ollama keyless "llama2" = Raise e ->
               bot = VStr ("An error occurred: " ++ exn_str keyless e)) /\
    ui (snd (chatbot_tab keyless 0 "Any stew?" true (start chatted))) =
      (ui (start chatted) ++
       [UiTitle "Lumine AI ChatBot"; UiMarkdown chatbot_intro;
        UiWrite ("Aspiring Chef: " ++ "Any stew?");
        UiSuccess ("Culinary Luminary: " ++ py_str keyless bot)])%list /\
    user_input (session (snd (chatbot_tab keyless 0 "Any stew?" true (start chatted)))) = Some "".
Proof.
  apply (chat_tab_shows_the_turn keyless 0 "Any stew?" (start chatted)). discriminate.
Defined.

(** ** The runs of the upload tab and of the filter tab *)

Ltac open_fetch :=
  unfold result, logs, http_get, try_except, bind, record_call, lift, st_error, emit, ret,
    raise, extend;
  cbn [fst snd session ui calls start app];
  destruct (requests_get _ _) as [response | ?]; cbn [fst snd]; [ | discriminate ];
  destruct (status_code response =? 200)%Z; cbn [fst snd];
    [ | intros [= <-]; contradiction ];
  destruct (response_json response) as [body | []]; cbn [fst snd];
    try discriminate; try (intros [= <-]; contradiction).

Ltac close_fetch :=
  cbn [fst snd]; try discriminate; try (intros [= <-]; contradiction).

Section Runs.

Variable H : Host.

(** A fetch that returns something else than [None] wrote nothing and
    made its one request. *)
Lemma fetch_ingredient_list_quiet v :
  result (fetch_ingredient_list H) = Ok v -> v <> VNone ->
  logs (fetch_ingredient_list H) (Ok v) [] [HttpGet (api ++ "list.php?i=list")].
Proof.
  intros Hres Hne. revert Hres. unfold fetch_ingredient_list. open_fetch.
  destruct (getitem body "meals") as [m | []]; close_fetch.
  intros [= <-] st. now rewrite app_nil_r.
Qed.

Lemma fetch_category_list_quiet v :
  result (fetch_category_list H) = Ok v -> v <> VNone ->
  logs (fetch_category_list H) (Ok v) [] [HttpGet (api ++ "categories.php")].
Proof.
  intros Hres Hne. revert Hres. unfold fetch_category_list. open_fetch.
  destruct (getitem body "categories") as [m | []]; close_fetch.
  destruct (py_iter m) as [items | []]; close_fetch.
  destruct (omap _ items) as [names | []]; close_fetch.
  intros [= <-] st. now rewrite app_nil_r.
Qed.

Lemma fetch_area_list_quiet v :
  result (fetch_area_list H) = Ok v -> v <> VNone ->
  logs (fetch_area_list H) (Ok v) [] [HttpGet (api ++ "list.php?a=list")].
Proof.
  intros Hres Hne. revert Hres. unfold fetch_area_list. open_fetch.
  destruct (getitem body "meals") as [m | []]; close_fetch.
  destruct (py_iter m) as [items | []]; close_fetch.
  destruct (omap _ items) as [names | []]; close_fetch.
  intros [= <-] st. now rewrite app_nil_r.
Qed.

Lemma search_recipes_by_category_and_area_quiet category area v :
  result (search_recipes_by_category_and_area H category area) = Ok v -> v <> VNone ->
  logs (search_recipes_by_category_and_area H category area) (Ok v) []
       [HttpGet (api ++ "filter.php?c=" ++ py_str H category ++ "&a=" ++ py_str H area)].
Proof.
  intros Hres Hne. revert Hres. unfold search_recipes_by_category_and_area. open_fetch.
  destruct (getitem body "meals") as [m | []]; close_fetch.
  intros [= <-] st. now rewrite app_nil_r.
Qed.

Lemma truthy_not_None v : truthy v = true -> v <> VNone.
Proof. intros Ht ->. discriminate. Qed.

(** The upload tab up to the search: with a sheet uploaded, a catalogue of
    ingredients fetched and the button pressed, the tab is the selection
    run on what the search returns. *)
Lemma upload_products_tab_run (file : DataFrame) R names recipes evs cs st :
  result (fetch_ingredient_list H) = Ok R ->
  truthy R = true ->
  normalize_ingredients (unique file) R = Ok names ->
  logs (search_recipes_by_ingredients H (fst names)) (Ok recipes) evs cs ->
  upload_products_tab H (Some file) true st =
  select_best_match H recipes (fst names)
    (extend st
       ([UiTitle "Ready to showcase your discounted products?"; UiWrite upload_intro;
         UiWrite "### Your Purchased Discounted Products"; UiWriteFrame file] ++ evs)
       (HttpGet (api ++ "list.php?i=list") :: cs)).
Proof.
  intros HR Ht Hnames Hsearch.
  pose proof (fetch_ingredient_list_quiet R HR (truthy_not_None _ Ht)) as Hfetch.
  unfold upload_products_tab, load_items.
  unfold bind at 1 2 3 4. unfold st_title, st_write, emit. cbn [fst snd session ui calls].
  unfold bind at 1. rewrite Hfetch. rewrite Ht.
  unfold bind at 1. unfold lift at 1. rewrite Hnames.
  unfold bind at 1. rewrite Hsearch. rewrite extend_extend.
  f_equal. unfold extend. cbn [session ui calls]. f_equal.
  now rewrite <- !app_assoc.
Qed.

End Runs.

(** ** The upload tab, end to end *)

Section UploadTab.

Variable H : Host.

Lemma fetch_ingredient_list_calls r evs cs :
  logs (fetch_ingredient_list H) r evs cs -> cs = [HttpGet (api ++ "list.php?i=list")].
Proof.
  intros Hlogs. specialize (Hlogs (start empty_session)).
  apply (f_equal (fun p => calls (snd p))) in Hlogs. cbn [extend snd calls start app] in Hlogs.
  rewrite <- Hlogs. unfold fetch_ingredient_list, http_get, bind, record_call, lift. cbn.
  destruct (requests_get H _) as [response | e]; [ | reflexivity ].
  destruct (status_code response =? 200)%Z; [ | reflexivity ].
  unfold try_except, bind, lift.
  destruct (response_json response) as [body | e]; [ | destruct e; reflexivity ].
  destruct (getitem body "meals") as [m | e]; [ | destruct e ]; reflexivity.
Qed.

(** What the loop returned, read as in [best_match_loop_first_best], for a
    loop entered with no best recipe. *)
Lemma first_best_is_maximal N recipes best count :
  result (best_match_loop H recipes N VNone 0) = Ok (best, count) ->
  (best = VNone /\ forall c d n, In c recipes -> score H N c = Ok (Some (d, n)) -> n = 0)
  \/
  (truthy best = true /\ 0 < count /\
   (exists c, In c recipes /\ score H N c = Ok (Some (best, count))) /\
   forall c d n, In c recipes -> score H N c = Ok (Some (d, n)) -> n <= count).
Proof.
  intros Hrun.
  destruct (best_match_loop_first_best _ _ _ _ _ _ _ Hrun)
    as [(-> & -> & Hle) | (pre & c & post & Heq & Hc & Hgt & Hpre & Hpost)].
  - left. split; [ reflexivity | ].
    intros c d n Hin Hs. specialize (Hle _ _ _ Hin Hs). lia.
  - right. destruct (score_truthy _ _ _ _ _ Hc) as [Ht _].
    split; [ exact Ht | ]. split; [ lia | ]. split.
    + exists c. split; [ | exact Hc ]. rewrite Heq. apply in_or_app. right. now left.
    + intros c' d' n' Hin Hs. rewrite Heq in Hin.
      apply in_app_or in Hin. destruct Hin as [Hin | [<- | Hin]].
      * specialize (Hpre _ _ _ Hin Hs). lia.
      * rewrite Hc in Hs. injection Hs as _ <-. lia.
      * exact (Hpost _ _ _ Hin Hs).
Qed.

End UploadTab.

(** X11. The upload tab asks the recipe database for nothing until it is
    given a sheet; given a sheet that is read and has its column of product
    names, it asks only for the list of ingredients until the button is
    pressed.  In both cases the session is left as it was. *)
Theorem upload_tab_waits_for_the_button (H : Host) (file : DataFrame) (pressed : bool)
  (st : State) :
  upload_products_tab H None pressed st
  = (Ok tt, extend st [UiTitle "Ready to showcase your discounted products?";
                       UiWrite upload_intro] []) /\
  session (snd (upload_products_tab H (Some file) false st)) = session st /\
  calls (snd (upload_products_tab H (Some file) false st))
  = (calls st ++ [HttpGet (api ++ "list.php?i=list")])%list.
Proof.
  split.
  - unfold upload_products_tab, bind, st_title, st_write, emit, ret, extend. cbn.
    now rewrite <- app_assoc, app_nil_r.
  - destruct (logger_logs _ (logger_fetch_ingredient_list H)) as (evs & cs & Hfetch).
    pose proof (fetch_ingredient_list_calls H _ _ _ Hfetch) as ->.
    unfold upload_products_tab, load_items, bind, st_title, st_write, emit, lift, ret.
    cbn [fst snd session ui calls]. rewrite !Hfetch.
    destruct (result (fetch_ingredient_list H)) as [R | e]; [ | split; reflexivity ].
    destruct (truthy R); [ | split; reflexivity ].
    destruct (normalize_ingredients (unique file) R) as [names | e]; split; reflexivity.
Qed.

(** X12. When none of the products of the sheet is a recognised ingredient,
    pressing the button sends no search to the recipe database: the tab
    writes that no recipes were found and leaves the session as it was. *)
Theorem upload_tab_with_nothing_recognised (H : Host) (file : DataFrame) (R : value)
  (unmatched : list string) (st : State) :
  result (fetch_ingredient_list H) = Ok R ->
  truthy R = true ->
  normalize_ingredients (unique file) R = Ok ([], unmatched) ->
  upload_products_tab H (Some file) true st
  = (Ok tt,
     extend st [UiTitle "Ready to showcase your discounted products?"; UiWrite upload_intro;
                UiWrite "### Your Purchased Discounted Products"; UiWriteFrame file;
                UiWrite "No recipes found. Time to get creative in the kitchen!"]
               [HttpGet (api ++ "list.php?i=list")]).
Proof.
  intros HR Ht Hnames.
  rewrite (upload_products_tab_run H file R _ (VList []) [] [] st HR Ht Hnames).
  - cbn [fst]. rewrite select_best_match_empty, extend_extend. reflexivity.
  - cbn [fst]. apply logs_ret.
Qed.

Lemma upload_tab_with_nothing_recognised_witness :
  upload_products_tab kitchen (Some ["Tofu"; "Leek"; "Tofu"]) true (start (session_with plain_rice))
  = (Ok tt,
     extend (start (session_with plain_rice))
       [UiTitle "Ready to showcase your discounted products?"; UiWrite upload_intro;
        UiWrite "### Your Purchased Discounted Products"; UiWriteFrame ["Tofu"; "Leek"; "Tofu"];
        UiWrite "No recipes found. Time to get creative in the kitchen!"]
       [HttpGet (api ++ "list.php?i=list")]).
Proof.
  apply (upload_tab_with_nothing_recognised kitchen ["Tofu"; "Leek"; "Tofu"]
           (VList [VDict [("strIngredient", VStr "Chicken")];
                   VDict [("strIngredient", VStr "Salt")]])
           ["Tofu"; "Leek"]); reflexivity.
Defined.

(** X13. The upload tab stores the best match: when the list of
    ingredients is fetched, the catalogue answers the search for every
    recognised product of the sheet and every candidate found can be
    scored, the tab completes; it leaves the session as it was when every
    candidate has overlap 0, and otherwise stores the details of a
    candidate whose overlap is positive and greatest among the candidates
    found. *)
Theorem upload_tab_stores_the_best_match (H : Host) (file : DataFrame) (R : value)
  (N unmatched : list string) (lists : list (list value)) (st : State) :
  result (fetch_ingredient_list H) = Ok R ->
  truthy R = true ->
  normalize_ingredients (unique file) R = Ok (N, unmatched) ->
  Forall2 (answers_with H) N lists ->
  (forall c, In c (concat lists) -> exists s, score H N c = Ok s) ->
  fst (upload_products_tab H (Some file) true st) = Ok tt /\
  ((session (snd (upload_products_tab H (Some file) true st)) = session st /\
    forall c d n, In c (concat lists) -> score H N c = Ok (Some (d, n)) -> n = 0)
   \/
   exists c d n,
     In c (concat lists) /\ score H N c = Ok (Some (d, n)) /\ 0 < n /\
     session (snd (upload_products_tab H (Some file) true st)) = stored d (session st) /\
     forall c' d' n', In c' (concat lists) -> score H N c' = Ok (Some (d', n')) -> n' <= n).
Proof.
  intros HR Ht Hnames Hanswers Hscored.
  assert (Hsearch : logs (search_recipes_by_ingredients H N) (Ok (VList (concat lists))) []
                         (map (fun ingredient => HttpGet (filter_url ingredient)) N)).
  { intros st'. unfold search_recipes_by_ingredients.
    rewrite <- (app_nil_r N) at 1. rewrite (search_loop_unions H _ _ Hanswers). reflexivity. }
  rewrite (upload_products_tab_run H file R _ _ _ _ st HR Ht Hnames Hsearch). cbn [fst].
  set (st1 := extend st _ _).
  change (session st) with (session st1).
  destruct (concat lists) as [| c0 rest] eqn:Hcandidates.
  - rewrite select_best_match_empty. split; [ reflexivity | ].
    left. split; [ reflexivity | intros c d n [] ].
  - rewrite <- Hcandidates in *.
    destruct (select_best_match_run H N (concat lists) st1) as (evs & cs & ->).
    { rewrite Hcandidates. discriminate. }
    destruct (best_match_loop_returns H N _ Hscored VNone 0) as [[best count] Hrun].
    rewrite Hrun.
    destruct (first_best_is_maximal H N _ _ _ Hrun)
      as [(-> & Hzero) | (Hbest & Hpos & (c & Hin & Hc) & Hmax)].
    + cbn [truthy]. split; [ reflexivity | ]. left. split; [ reflexivity | exact Hzero ].
    + rewrite Hbest. split; [ reflexivity | ].
      right. exists c, best, count. repeat split; auto.
Qed.

Lemma upload_tab_stores_the_best_match_witness :
  fst (upload_products_tab kitchen (Some ["Chicken"; "Tofu"]) true (start empty_session)) = Ok tt /\
  session (snd (upload_products_tab kitchen (Some ["Chicken"; "Tofu"]) true (start empty_session)))
  = stored chicken_soup empty_session.
Proof.
  destruct (upload_tab_stores_the_best_match kitchen ["Chicken"; "Tofu"]
              (VList [VDict [("strIngredient", VStr "Chicken")];
                      VDict [("strIngredient", VStr "Salt")]])
              ["Chicken"] ["Tofu"]
              [[stub "1" "Broth"; stub "2" "Chicken Soup"; stub "3" "Salted Chicken"]]
              (start empty_session)) as [Hok _].
  - reflexivity.
  - reflexivity.
  - reflexivity.
  - repeat constructor. eexists _, "". split; [ reflexivity | left; reflexivity ].
  - intros c [<- | [<- | [<- | []]]]; eexists; vm_compute; reflexivity.
  - split; [ exact Hok | reflexivity ].
Defined.

(** ** The filter tab, end to end *)

Section FilterTab.

Variable H : Host.

(** The filter tab once both lists are fetched: what is left is the
    handling of the button, after the two requests. *)
Lemma select_filters_tab_run picked_category picked_area pressed categories areas st :
  result (fetch_category_list H) = Ok (VList categories) ->
  result (fetch_area_list H) = Ok (VList areas) ->
  select_filters_tab H picked_category picked_area pressed st =
  (if pressed then
     if negb (value_eq_str (selectbox (VStr "All" :: categories) picked_category) "All")
        || negb (value_eq_str (selectbox (VStr "All" :: areas) picked_area) "All")
     then
       recipes <- search_recipes_by_category_and_area H
                    (selectbox (VStr "All" :: categories) picked_category)
                    (selectbox (VStr "All" :: areas) picked_area) ;;
       select_first H recipes
     else st_error "Pick a Food Category or Area for Recommendations."
   else ret tt)
    (extend st [UiTitle "Feeling indecisive about your culinary cravings?"; UiWrite filters_intro]
            [HttpGet (api ++ "categories.php"); HttpGet (api ++ "list.php?a=list")]).
Proof.
  intros Hc Ha.
  assert (Hcl : logs (fetch_category_list H) (Ok (VList categories)) []
                     [HttpGet (api ++ "categories.php")])
    by (apply fetch_category_list_quiet; [ assumption | discriminate ]).
  assert (Hal : logs (fetch_area_list H) (Ok (VList areas)) []
                     [HttpGet (api ++ "list.php?a=list")])
    by (apply fetch_area_list_quiet; [ assumption | discriminate ]).
  unfold select_filters_tab.
  unfold bind at 1 2. unfold st_title, st_write, emit. cbn [fst snd session ui calls].
  unfold bind at 1. rewrite Hcl. unfold bind at 1. rewrite Hal.
  unfold bind at 1. unfold lift at 1. cbn [list_concat app].
  unfold bind at 1. unfold lift at 1. cbn [list_concat app].
  f_equal. unfold extend. cbn [session ui calls]. f_equal.
  - now rewrite !app_nil_r, <- !app_assoc.
  - now rewrite <- !app_assoc.
Qed.

(** The filter tab when the search finds candidates and the lookup of the
    first one returns. *)
Lemma select_filters_tab_stores picked_category picked_area categories areas
  recipe rest recipe_id details evs st :
  result (fetch_category_list H) = Ok (VList categories) ->
  result (fetch_area_list H) = Ok (VList areas) ->
  value_eq_str (selectbox (VStr "All" :: categories) picked_category) "All"
  && value_eq_str (selectbox (VStr "All" :: areas) picked_area) "All" = false ->
  result (search_recipes_by_category_and_area H
            (selectbox (VStr "All" :: categories) picked_category)
            (selectbox (VStr "All" :: areas) picked_area)) = Ok (VList (recipe :: rest)) ->
  getitem recipe "idMeal" = Ok recipe_id ->
  logs (get_recipe_details H recipe_id) (Ok details) evs [HttpGet (lookup_url H recipe_id)] ->
  select_filters_tab H picked_category picked_area true st =
  (Ok tt,
   mkState (stored details (session st))
           (ui st ++ [UiTitle "Feeling indecisive about your culinary cravings?";
                      UiWrite filters_intro; UiSuccess unlocked_message] ++ evs)
           (calls st ++ [HttpGet (api ++ "categories.php"); HttpGet (api ++ "list.php?a=list");
                         HttpGet (filter_request H
                                    (selectbox (VStr "All" :: categories) picked_category)
                                    (selectbox (VStr "All" :: areas) picked_area));
                         HttpGet (lookup_url H recipe_id)])).
Proof.
  intros Hc Ha Hpicked Hsearch Hid Hlookup.
  rewrite (select_filters_tab_run _ _ _ _ _ _ Hc Ha).
  replace (negb _ || negb _) with true
    by (symmetry; rewrite <- negb_andb; now apply negb_true_iff).
  pose proof (search_recipes_by_category_and_area_quiet H _ _ _ Hsearch
                ltac:(discriminate)) as Hsl.
  unfold bind at 1. rewrite Hsl.
  rewrite (select_first_run H recipe rest recipe_id _ _ _ _ Hid Hlookup).
  unfold extend, filter_request. cbn [session ui calls]. f_equal. f_equal.
  - now rewrite app_nil_r, <- !app_assoc.
  - now rewrite <- !app_assoc.
Qed.

End FilterTab.

(** X14. With both select boxes left on "All", pressing the button of the
    filter tab searches nothing: after the two requests for the lists the
    tab reports that a category or an area must be picked and leaves the
    session as it was. *)
Theorem filter_tab_needs_a_filter (H : Host) (categories areas : list value) (st : State) :
  result (fetch_category_list H) = Ok (VList categories) ->
  result (fetch_area_list H) = Ok (VList areas) ->
  select_filters_tab H 0 0 true st =
  (Ok tt,
   extend st [UiTitle "Feeling indecisive about your culinary cravings?"; UiWrite filters_intro;
              UiError "Pick a Food Category or Area for Recommendations."]
             [HttpGet (api ++ "categories.php"); HttpGet (api ++ "list.php?a=list")]).
Proof.
  intros Hc Ha. rewrite (select_filters_tab_run H 0 0 true _ _ st Hc Ha).
  cbn [selectbox nth hd value_eq_str String.eqb Ascii.eqb Bool.eqb negb orb].
  unfold st_error, emit, extend. cbn [session ui calls].
  now rewrite <- !app_assoc.
Qed.

Lemma filter_tab_needs_a_filter_witness :
  select_filters_tab kitchen 0 0 true (start (session_with plain_rice)) =
  (Ok tt,
   extend (start (session_with plain_rice))
     [UiTitle "Feeling indecisive about your culinary cravings?"; UiWrite filters_intro;
      UiError "Pick a Food Category or Area for Recommendations."]
     [HttpGet (api ++ "categories.php"); HttpGet (api ++ "list.php?a=list")]).
Proof.
  apply (filter_tab_needs_a_filter kitchen [VStr "Soup"] [VStr "French"]); reflexivity.
Defined.

(** X15. A Failure of the fetch of the categories or of the areas is not
    survived by the filter tab: when both fetches return and one of them
    returned [None], the tab raises a [TypeError] where it builds the
    options of the select boxes, whether the button is pressed or not; the
    session is left as it was. *)
Theorem filter_tab_raises_after_a_failed_list (H : Host) (picked_category picked_area : nat)
  (pressed : bool) (categories areas : value) (st : State) :
  result (fetch_category_list H) = Ok categories ->
  result (fetch_area_list H) = Ok areas ->
  categories = VNone \/ areas = VNone ->
  fst (select_filters_tab H picked_category picked_area pressed st) = Raise TypeError /\
  session (snd (select_filters_tab H picked_category picked_area pressed st)) = session st.
Proof.
  intros Hc Ha Hnone.
  destruct (logger_logs _ (logger_fetch_category_list H)) as (e1 & c1 & Hcl).
  destruct (logger_logs _ (logger_fetch_area_list H)) as (e2 & c2 & Hal).
  rewrite Hc in Hcl. rewrite Ha in Hal.
  unfold select_filters_tab, bind, st_title, st_write, emit, lift.
  cbn [fst snd session ui calls]. rewrite !Hcl, !Hal.
  destruct Hnone as [-> | ->].
  - split; reflexivity.
  - destruct categories; split; reflexivity.
Qed.

Lemma filter_tab_raises_after_a_failed_list_witness :
  fst (select_filters_tab offline 0 0 false (start (session_with plain_rice))) = Raise TypeError /\
  session (snd (select_filters_tab offline 0 0 false (start (session_with plain_rice))))
  = session (start (session_with plain_rice)).
Proof.
  apply (filter_tab_raises_after_a_failed_list offline 0 0 false VNone VNone);
    [ reflexivity | reflexivity | now left ].
Defined.

(** X16. The filter tab, end to end: with both lists fetched, a category
    or an area picked, a search that finds candidates and a lookup of the
    first candidate that returns, the tab completes after exactly four
    requests, for the categories, the areas, the search (in which a box
    left on "All" is sent as the filter "All") and the first candidate;
    it stores what the lookup returned. *)
Theorem filter_tab_stores_the_first_candidate (H : Host) (picked_category picked_area : nat)
  (categories areas : list value) (recipe : value) (rest : list value)
  (recipe_id details : value) (st : State) :
  result (fetch_category_list H) = Ok (VList categories) ->
  result (fetch_area_list H) = Ok (VList areas) ->
  value_eq_str (selectbox (VStr "All" :: categories) picked_category) "All"
  && value_eq_str (selectbox (VStr "All" :: areas) picked_area) "All" = false ->
  result (search_recipes_by_category_and_area H
            (selectbox (VStr "All" :: categories) picked_category)
            (selectbox (VStr "All" :: areas) picked_area)) = Ok (VList (recipe :: rest)) ->
  getitem recipe "idMeal" = Ok recipe_id ->
  result (get_recipe_details H recipe_id) = Ok details ->
  fst (select_filters_tab H picked_category picked_area true st) = Ok tt /\
  session (snd (select_filters_tab H picked_category picked_area true st))
  = stored details (session st) /\
  calls (snd (select_filters_tab H picked_category picked_area true st))
  = (calls st ++ [HttpGet (api ++ "categories.php"); HttpGet (api ++ "list.php?a=list");
                  HttpGet (filter_request H
                             (selectbox (VStr "All" :: categories) picked_category)
                             (selectbox (VStr "All" :: areas) picked_area));
                  HttpGet (lookup_url H recipe_id)])%list.
Proof.
  intros Hc Ha Hpicked Hsearch Hid Hdetails.
  destruct (logger_logs _ (logger_get_recipe_details H recipe_id)) as (evs & cs & Hlookup).
  pose proof (get_recipe_details_calls H _ _ _ _ Hlookup) as ->.
  rewrite Hdetails in Hlookup.
  rewrite (select_filters_tab_stores H _ _ _ _ _ _ _ _ _ st Hc Ha Hpicked Hsearch Hid Hlookup).
  repeat split.
Qed.

Lemma filter_tab_stores_the_first_candidate_witness :
  fst (select_filters_tab kitchen 0 1 true (start (session_with plain_rice))) = Ok tt /\
  session (snd (select_filters_tab kitchen 0 1 true (start (session_with plain_rice))))
  = stored chicken_soup (session (start (session_with plain_rice))) /\
  calls (snd (select_filters_tab kitchen 0 1 true (start (session_with plain_rice))))
  = (calls (start (session_with plain_rice)) ++
     [HttpGet (api ++ "categories.php"); HttpGet (api ++ "list.php?a=list");
      HttpGet (filter_request kitchen (selectbox (VStr "All" :: [VStr "Soup"]) 0)
                                      (selectbox (VStr "All" :: [VStr "French"]) 1));
      HttpGet (lookup_url kitchen (VStr "2"))])%list.
Proof.
  apply (filter_tab_stores_the_first_candidate kitchen 0 1 [VStr "Soup"] [VStr "French"]
           (stub "2" "Chicken Soup") [stub "1" "Broth"] (VStr "2") chicken_soup);
    reflexivity.
Defined.

(** ** The recipe page *)

Section Page.

Variable H : Host.

Lemma ingredient_lines_spec items slots :
  forall ingredients,
    ingredient_lines H (VDict items) slots ingredients =
    Ok (ingredients ++ map (slot_line H items) (filter (listed_slot items) slots))%list.
Proof.
  induction slots as [| i slots IH]; intros ingredients; cbn [ingredient_lines filter map].
  - now rewrite app_nil_r.
  - assert (Hline : listed_slot items i = true ->
                    exists ingredient measure,
                      dict_lookup ("strIngredient" ++ string_of_nat i) items = Some ingredient /\
                      dict_lookup ("strMeasure" ++ string_of_nat i) items = Some measure /\
                      slot_line H items i = py_str H measure ++ " " ++ py_str H ingredient).
    { unfold listed_slot, slot_line.
      destruct (dict_lookup ("strIngredient" ++ string_of_nat i) items) as [ingredient | ];
        [ | discriminate ].
      destruct (dict_lookup ("strMeasure" ++ string_of_nat i) items) as [measure | ];
        [ | discriminate ].
      intros _. now exists ingredient, measure. }
    destruct (listed_slot items i) eqn:Hlisted.
    + destruct (Hline eq_refl) as (ingredient & measure & Hi & Hm & Hl).
      unfold listed_slot in Hlisted. rewrite Hi, Hm in Hlisted.
      cbn [py_get]. rewrite Hi, Hm. cbn [obind]. rewrite Hlisted, IH.
      cbn [map]. rewrite Hl. now rewrite <- app_assoc.
    + clear Hline. unfold listed_slot in Hlisted. cbn [py_get].
      destruct (dict_lookup ("strIngredient" ++ string_of_nat i) items) as [ingredient | ];
        destruct (dict_lookup ("strMeasure" ++ string_of_nat i) items) as [measure | ];
        cbn [obind truthy andb]; rewrite ?Hlisted, ?andb_false_r; apply IH.
Qed.

(** The page for a recipe that is a JSON object with a name, a picture
    that [st.image] shows and instructions. *)
Lemma recipe_page_run st_image s items title image instructions :
  best_recipe s = Some (VDict items) ->
  dict_lookup "strMeal" items = Some title ->
  dict_lookup "strMealThumb" items = Some image ->
  st_image image 450%Z = Ok tt ->
  dict_lookup "strInstructions" items = Some instructions ->
  recipe_page H st_image s [] =
  (Ok tt,
   [(Body, WTitle title);
    (Body, WColumns [VInt 1; VFloat half]);
    (Column 1, WImage image 450);
    (Column 2, WWrite (VStr "### Ingredients"));
    (Column 2, WMarkdown
                 (String.concat newline
                    (map (fun ingredient => "- " ++ ingredient)
                         (map (slot_line H items) (filter (listed_slot items) (seq 1 20))))));
    (Body, WWrite (VStr "### Instructions"));
    (Body, WWrite instructions);
    (Body, WWrite (VStr "### Source"));
    (Body, WWrite (VStr ("[" ++ py_str H (match dict_lookup "strSource" items with
                                          | Some source => source
                                          | None => VStr "No link available"
                                          end)
                         ++ "](" ++ py_str H (match dict_lookup "strSource" items with
                                              | Some source => source
                                              | None => VStr "#"
                                              end) ++ ")")))]).
Proof.
  intros Hbest Htitle Himage Hshown Hinstructions.
  unfold recipe_page. rewrite Hbest.
  replace (truthy (VDict items)) with true
    by (destruct items; [ discriminate | reflexivity ]).
  unfold show_image, rbind, rlift, place. cbn [getitem py_get_default].
  rewrite Htitle, Himage, Hshown, Hinstructions, ingredient_lines_spec.
  destruct (dict_lookup "strSource" items); reflexivity.
Qed.

End Page.

(** X17. The ingredients the recipe page lists are the slots 1 to 20, in
    order, that have both an ingredient and a measure that are not empty,
    each written as the measure, a space and the ingredient: a slot whose
    ingredient or measure is missing, [null] or the empty string is left
    out, and there are at most 20 lines. *)
Theorem recipe_page_lists_the_filled_slots (H : Host) (items : list (string * value)) :
  exists lines,
    ingredient_lines H (VDict items) ingredient_slots [] = Ok lines /\
    lines = map (slot_line H items) (filter (listed_slot items) (seq 1 20)) /\
    length lines <= 20 /\
    (forall i, In i (filter (listed_slot items) (seq 1 20)) <->
               1 <= i <= 20 /\
               exists ingredient measure,
                 dict_lookup ("strIngredient" ++ string_of_nat i) items = Some ingredient /\
                 dict_lookup ("strMeasure" ++ string_of_nat i) items = Some measure /\
                 truthy ingredient = true /\ truthy measure = true).
Proof.
  eexists. split; [ apply ingredient_lines_spec | ].
  split; [ reflexivity | ]. split.
  - cbn [app]. rewrite length_map.
    apply Nat.le_trans with (length (seq 1 20)); [ apply filter_length_le | ].
    rewrite length_seq. lia.
  - intros i. rewrite filter_In, in_seq. unfold listed_slot.
    destruct (dict_lookup ("strIngredient" ++ string_of_nat i) items) as [ingredient | ];
      destruct (dict_lookup ("strMeasure" ++ string_of_nat i) items) as [measure | ].
    + rewrite andb_true_iff. split.
      * intros [Hi [Ht1 Ht2]]. split; [ lia | ]. now exists ingredient, measure.
      * intros [Hi (i' & m' & [= <-] & [= <-] & Ht1 & Ht2)]. split; [ lia | auto ].
    + split; [ intros [_ Hf]; discriminate | intros [_ (i' & m' & _ & Hm & _)]; discriminate ].
    + split; [ intros [_ Hf]; discriminate | intros [_ (i' & m' & Hi' & _)]; discriminate ].
    + split; [ intros [_ Hf]; discriminate | intros [_ (i' & m' & Hi' & _)]; discriminate ].
Qed.

(** X18. For a stored recipe that has a name, a picture that [st.image]
    shows and instructions, the recipe page completes and writes nine
    widgets: the title, the two columns, the picture in the first, the
    heading and the list of ingredients in the second, then the
    instructions and the source.  The default "No link available" is used
    only when the recipe has no [strSource] at all: a source that is
    [null] is written as [str(None)]. *)
Theorem recipe_page_shows_the_recipe (H : Host) (st_image : value -> Z -> outcome unit)
  (s : Session) (items : list (string * value)) (title image instructions : value) :
  best_recipe s = Some (VDict items) ->
  dict_lookup "strMeal" items = Some title ->
  dict_lookup "strMealThumb" items = Some image ->
  st_image image 450%Z = Ok tt ->
  dict_lookup "strInstructions" items = Some instructions ->
  exists lines link,
    recipe_page H st_image s [] =
    (Ok tt,
     [(Body, WTitle title);
      (Body, WColumns [VInt 1; VFloat half]);
      (Column 1, WImage image 450);
      (Column 2, WWrite (VStr "### Ingredients"));
      (Column 2, WMarkdown (String.concat newline (map (fun line => "- " ++ line) lines)));
      (Body, WWrite (VStr "### Instructions"));
      (Body, WWrite instructions);
      (Body, WWrite (VStr "### Source"));
      (Body, WWrite (VStr link))]) /\
    ingredient_lines H (VDict items) ingredient_slots [] = Ok lines /\
    (dict_lookup "strSource" items = None -> link = "[" ++ py_str H (VStr "No link available")
                                                 ++ "](" ++ py_str H (VStr "#") ++ ")") /\
    (forall source, dict_lookup "strSource" items = Some source ->
                    link = "[" ++ py_str H source ++ "](" ++ py_str H source ++ ")").
Proof.
  intros Hbest Htitle Himage Hshown Hinstructions.
  do 2 eexists. split; [ apply (recipe_page_run H st_image s items); eassumption | ].
  split; [ apply ingredient_lines_spec | ].
  split.
  - intros ->. reflexivity.
  - intros source ->. reflexivity.
Qed.

Lemma recipe_page_shows_the_recipe_witness :
  recipe_page kitchen demo_image (session_with pancakes) [] =
  (Ok tt,
   [(Body, WTitle (VStr "Pancakes"));
    (Body, WColumns [VInt 1; VFloat half]);
    (Column 1, WImage (VStr "https://example.org/pancakes.jpg") 450);
    (Column 2, WWrite (VStr "### Ingredients"));
    (Column 2, WMarkdown ("- 100g Flour" ++ newline ++ "- 1 Egg"));
    (Body, WWrite (VStr "### Instructions"));
    (Body, WWrite (VStr "Mix and fry."));
    (Body, WWrite (VStr "### Source"));
    (Body, WWrite (VStr "[None](None)"))]).
Proof.
  destruct (recipe_page_shows_the_recipe kitchen demo_image (session_with pancakes)
              [("idMeal", VStr "7"); ("strMeal", VStr "Pancakes");
               ("strMealThumb", VStr "https://example.org/pancakes.jpg");
               ("strInstructions", VStr "Mix and fry.");
               ("strIngredient1", VStr "Flour"); ("strMeasure1", VStr "100g");
               ("strIngredient2", VStr "Milk"); ("strMeasure2", VStr "");
               ("strIngredient3", VStr ""); ("strMeasure3", VStr " ");
               ("strIngredient4", VNone); ("strMeasure4", VNone);
               ("strIngredient5", VStr "Egg"); ("strMeasure5", VStr "1");
               ("strSource", VNone)]
              (VStr "Pancakes") (VStr "https://example.org/pancakes.jpg") (VStr "Mix and fry.")
              eq_refl eq_refl eq_refl eq_refl eq_refl)
    as (lines & link & Hpage & Hlines & _ & Hlink).
  rewrite Hpage. rewrite (Hlink VNone eq_refl).
  vm_compute in Hlines. injection Hlines as <-. reflexivity.
Defined.

(** X19. What the recipe page needs of a stored recipe that is a JSON
    object: without a name it raises a [KeyError] at once; without a
    picture, a [KeyError] after the title and the columns; with a picture
    that [st.image] raises on (a [null] one), that exception, after the
    title and the columns too; without instructions, a [KeyError] after the
    list of ingredients.  It completes exactly when the recipe has the
    three keys and [st.image] shows the picture; no other key is
    required. *)
Theorem recipe_page_requires_three_keys (H : Host) (st_image : value -> Z -> outcome unit)
  (s : Session) (items : list (string * value)) :
  best_recipe s = Some (VDict items) ->
  items <> [] ->
  (dict_lookup "strMeal" items = None -> recipe_page H st_image s [] = (Raise KeyError, [])) /\
  (forall title,
      dict_lookup "strMeal" items = Some title ->
      dict_lookup "strMealThumb" items = None ->
      recipe_page H st_image s [] =
      (Raise KeyError, [(Body, WTitle title); (Body, WColumns [VInt 1; VFloat half])])) /\
  (forall title image e,
      dict_lookup "strMeal" items = Some title ->
      dict_lookup "strMealThumb" items = Some image ->
      st_image image 450%Z = Raise e ->
      recipe_page H st_image s [] =
      (Raise e, [(Body, WTitle title); (Body, WColumns [VInt 1; VFloat half])])) /\
  (forall title image,
      dict_lookup "strMeal" items = Some title ->
      dict_lookup "strMealThumb" items = Some image ->
      st_image image 450%Z = Ok tt ->
      dict_lookup "strInstructions" items = None ->
      fst (recipe_page H st_image s []) = Raise KeyError /\
      length (snd (recipe_page H st_image s [])) = 6) /\
  (fst (recipe_page H st_image s []) = Ok tt <->
   dict_lookup "strMeal" items <> None /\
   (exists image, dict_lookup "strMealThumb" items = Some image /\
                  st_image image 450%Z = Ok tt) /\
   dict_lookup "strInstructions" items <> None).
Proof.
  intros Hbest Hne.
  assert (Htruthy : truthy (VDict items) = true)
    by (destruct items; [ contradiction | reflexivity ]).
  assert (Hrun :
     recipe_page H st_image s [] =
     match dict_lookup "strMeal" items with
     | None => (Raise KeyError, [])
     | Some title =>
         match dict_lookup "strMealThumb" items with
         | None => (Raise KeyError, [(Body, WTitle title); (Body, WColumns [VInt 1; VFloat half])])
         | Some image =>
             match st_image image 450%Z with
             | Raise e => (Raise e, [(Body, WTitle title); (Body, WColumns [VInt 1; VFloat half])])
             | Ok _ =>
                 match dict_lookup "strInstructions" items with
                 | None => (Raise KeyError, snd (recipe_page H st_image s []))
                 | Some instructions => (Ok tt, snd (recipe_page H st_image s []))
                 end
             end
         end
     end /\
     (forall title image,
         dict_lookup "strMeal" items = Some title ->
         dict_lookup "strMealThumb" items = Some image ->
         st_image image 450%Z = Ok tt ->
         dict_lookup "strInstructions" items = None ->
         length (snd (recipe_page H st_image s [])) = 6)).
  { unfold recipe_page. rewrite Hbest, Htruthy.
    unfold show_image, rbind, rlift, place. cbn [getitem py_get_default].
    destruct (dict_lookup "strMeal" items) as [title | ];
      [ | split; [ reflexivity | discriminate ] ].
    destruct (dict_lookup "strMealThumb" items) as [image | ];
      [ | split; [ reflexivity | discriminate ] ].
    destruct (st_image image 450%Z) as [[] | e] eqn:Hshown.
    - rewrite ingredient_lines_spec.
      destruct (dict_lookup "strInstructions" items) as [instructions | ].
      + split; [ | discriminate ]. destruct (dict_lookup "strSource" items); reflexivity.
      + split; reflexivity.
    - split; [ reflexivity | ].
      intros title' image' _ [= <-] Hok. rewrite Hshown in Hok. discriminate. }
  destruct Hrun as [Hrun Hsix].
  split; [ | split; [ | split; [ | split ] ] ].
  - intros Hmeal. now rewrite Hrun, Hmeal.
  - intros title Hmeal Hthumb. now rewrite Hrun, Hmeal, Hthumb.
  - intros title image e Hmeal Hthumb Hraise. now rewrite Hrun, Hmeal, Hthumb, Hraise.
  - intros title image Hmeal Hthumb Hok Hinstructions. split.
    + now rewrite Hrun, Hmeal, Hthumb, Hok, Hinstructions.
    + now apply (Hsix title image).
  - rewrite Hrun.
    destruct (dict_lookup "strMeal" items) as [title | ];
      [ | split; [ discriminate | intros (Hc & _); contradiction ] ].
    destruct (dict_lookup "strMealThumb" items) as [image | ];
      [ | split; [ discriminate | intros (_ & (image & Hc & _) & _); discriminate ] ].
    destruct (st_image image 450%Z) as [[] | e] eqn:Hshown.
    + destruct (dict_lookup "strInstructions" items);
        [ | split; [ discriminate | intros (_ & _ & Hc); contradiction ] ].
      split; [ intros _ | reflexivity ].
      split; [ discriminate | ]. split; [ now exists image | discriminate ].
    + split; [ discriminate | ].
      intros (_ & (image' & [= <-] & Hok) & _). rewrite Hshown in Hok. discriminate.
Qed.

Lemma recipe_page_requires_three_keys_witness :
  recipe_page kitchen demo_image (session_with gruel) []
  = (Raise AttributeError,
     [(Body, WTitle (VStr "Gruel")); (Body, WColumns [VInt 1; VFloat half])]) /\
  recipe_page kitchen demo_image (session_with chicken_soup) []
  = (Raise KeyError,
     [(Body, WTitle (VStr "Chicken Soup")); (Body, WColumns [VInt 1; VFloat half])]).
Proof.
  destruct (recipe_page_requires_three_keys kitchen demo_image (session_with gruel)
              [("idMeal", VStr "8"); ("strMeal", VStr "Gruel"); ("strMealThumb", VNone);
               ("strInstructions", VStr "Boil.")]
              eq_refl ltac:(discriminate)) as (_ & _ & Hpicture & _).
  destruct (recipe_page_requires_three_keys kitchen demo_image (session_with chicken_soup)
              [("idMeal", VStr "2"); ("strMeal", VStr "Chicken Soup");
               ("strIngredient1", VStr "Chicken"); ("strIngredient2", VStr "Salt")]
              eq_refl ltac:(discriminate)) as (_ & Hthumb & _).
  split.
  - exact (Hpicture (VStr "Gruel") VNone AttributeError eq_refl eq_refl eq_refl).
  - exact (Hthumb (VStr "Chicken Soup") eq_refl eq_refl).
Defined.

(** X20. A lookup that fails in the filter tab empties the recipe page:
    when the search finds candidates and the lookup of the first one is a
    Failure, [None] is stored over the recipe the session held, and the
    recipe page that follows writes that no recipe is selected. *)
Theorem failed_lookup_empties_the_recipe_page (H : Host)
  (st_image : value -> Z -> outcome unit) (picked_category picked_area : nat)
  (categories areas : list value) (recipe : value) (rest : list value)
  (recipe_id : value) (st : State) :
  result (fetch_category_list H) = Ok (VList categories) ->
  result (fetch_area_list H) = Ok (VList areas) ->
  value_eq_str (selectbox (VStr "All" :: categories) picked_category) "All"
  && value_eq_str (selectbox (VStr "All" :: areas) picked_area) "All" = false ->
  result (search_recipes_by_category_and_area H
            (selectbox (VStr "All" :: categories) picked_category)
            (selectbox (VStr "All" :: areas) picked_area)) = Ok (VList (recipe :: rest)) ->
  getitem recipe "idMeal" = Ok recipe_id ->
  Failure (get_recipe_details H recipe_id) ->
  best_recipe (session (snd (select_filters_tab H picked_category picked_area true st)))
  = Some VNone /\
  recipe_page H st_image
    (session (snd (select_filters_tab H picked_category picked_area true st))) []
  = (Ok tt, [(Body, WWrite (VStr no_recipe_message))]).
Proof.
  intros Hc Ha Hpicked Hsearch Hid (msg & evs & cs & Hlookup & _).
  pose proof (get_recipe_details_calls H _ _ _ _ Hlookup) as ->.
  rewrite (select_filters_tab_stores H _ _ _ _ _ _ _ _ _ st Hc Ha Hpicked Hsearch Hid Hlookup).
  split; reflexivity.
Qed.

Lemma failed_lookup_empties_the_recipe_page_witness :
  best_recipe (session (snd (select_filters_tab kitchen 1 0 true (start (session_with pancakes)))))
  = Some VNone /\
  recipe_page kitchen demo_image
    (session (snd (select_filters_tab kitchen 1 0 true (start (session_with pancakes))))) []
  = (Ok tt, [(Body, WWrite (VStr no_recipe_message))]).
Proof.
  apply (failed_lookup_empties_the_recipe_page kitchen demo_image 1 0
           [VStr "Soup"] [VStr "French"]
           (stub "1" "Broth") [stub "2" "Chicken Soup"] (VStr "1"));
    try reflexivity.
  exists "API request failed with status code 500",
         [UiError "API request failed with status code 500"],
         [HttpGet (api ++ "lookup.php?i=1")].
  split; [ intros st; reflexivity | now left ].
Defined.

(** ** Further edges of the flows *)





(** X22. What [get_recipe_details] makes of a 200 response that is a JSON
    object, by the shape of its [meals]: of a list that is not empty, its
    first element, returned without a message; of [null], a [TypeError]
    that is not caught; of an object, a reported decoding failure and
    [None], the [KeyError] of its missing key 0 being caught. *)
Theorem get_recipe_details_by_shape (H : Host) (recipe_id : value)
  (items : list (string * value)) (page : string) :
  requests_get H (lookup_url H recipe_id) = Ok (mkResponse 200 (Some (VDict items)) page) ->
  (forall details rest,
      dict_lookup "meals" items = Some (VList (details :: rest)) ->
      logs (get_recipe_details H recipe_id) (Ok details) [] [HttpGet (lookup_url H recipe_id)]) /\
  (dict_lookup "meals" items = Some VNone ->
   logs (get_recipe_details H recipe_id) (Raise TypeError) [] [HttpGet (lookup_url H recipe_id)]) /\
  (forall fields,
      dict_lookup "meals" items = Some (VDict fields) ->
      logs (get_recipe_details H recipe_id) (Ok VNone) [UiError decode_error]
           [HttpGet (lookup_url H recipe_id)]).
Proof.
  intros Hget. unfold lookup_url in *. repeat split.
  - intros details rest Hmeals. unfold get_recipe_details. run_fetch Hget.
    cbn. rewrite Hmeals. cbn. now rewrite app_nil_r.
  - intros Hmeals. unfold get_recipe_details. run_fetch Hget.
    cbn. rewrite Hmeals. cbn. now rewrite app_nil_r.
  - intros fields Hmeals. unfold get_recipe_details. run_fetch Hget.
    cbn. rewrite Hmeals. cbn. reflexivity.
Qed.

Lemma get_recipe_details_by_shape_witness :
  logs (get_recipe_details kitchen (VStr "2")) (Ok chicken_soup) []
       [HttpGet (lookup_url kitchen (VStr "2"))].
Proof.
  destruct (get_recipe_details_by_shape kitchen (VStr "2") [("meals", VList [chicken_soup])] "")
    as (Hfirst & _); [ reflexivity | ].
  apply (Hfirst chicken_soup []). reflexivity.
Defined.

(** X23. A search by category and area that finds nothing ([meals] is
    [null], or an empty list) is not a failure: the filter tab makes its
    three requests, writes that no recipes were found and leaves the
    session, and the recipe it holds, as they were. *)
Theorem filter_tab_without_results (H : Host) (picked_category picked_area : nat)
  (categories areas : list value) (items : list (string * value)) (page : string)
  (found : value) (st : State) :
  result (fetch_category_list H) = Ok (VList categories) ->
  result (fetch_area_list H) = Ok (VList areas) ->
  value_eq_str (selectbox (VStr "All" :: categories) picked_category) "All"
  && value_eq_str (selectbox (VStr "All" :: areas) picked_area) "All" = false ->
  requests_get H (filter_request H (selectbox (VStr "All" :: categories) picked_category)
                                   (selectbox (VStr "All" :: areas) picked_area))
  = Ok (mkResponse 200 (Some (VDict items)) page) ->
  dict_lookup "meals" items = Some found ->
  found = VNone \/ found = VList [] ->
  select_filters_tab H picked_category picked_area true st =
  (Ok tt,
   extend st [UiTitle "Feeling indecisive about your culinary cravings?"; UiWrite filters_intro;
              UiWrite no_match_message]
             [HttpGet (api ++ "categories.php"); HttpGet (api ++ "list.php?a=list");
              HttpGet (filter_request H (selectbox (VStr "All" :: categories) picked_category)
                                        (selectbox (VStr "All" :: areas) picked_area))]).
Proof.
  intros Hc Ha Hpicked Hget Hmeals Hfound. revert st.
  assert (Hsearch : logs (search_recipes_by_category_and_area H
                            (selectbox (VStr "All" :: categories) picked_category)
                            (selectbox (VStr "All" :: areas) picked_area))
                         (Ok found) []
                         [HttpGet (filter_request H
                                     (selectbox (VStr "All" :: categories) picked_category)
                                     (selectbox (VStr "All" :: areas) picked_area))]).
  { unfold filter_request in *. unfold search_recipes_by_category_and_area. run_fetch Hget.
    cbn. rewrite Hmeals. cbn. now rewrite app_nil_r. }
  intros st. rewrite (select_filters_tab_run H _ _ _ _ _ st Hc Ha).
  replace (negb _ || negb _) with true
    by (symmetry; rewrite <- negb_andb; now apply negb_true_iff).
  unfold bind at 1. rewrite Hsearch. rewrite extend_extend.
  unfold select_first.
  replace (truthy found) with false by (destruct Hfound as [-> | ->]; reflexivity).
  unfold st_write, emit, extend. cbn [session ui calls].
  now rewrite app_nil_r, <- !app_assoc.
Qed.

Lemma filter_tab_without_results_witness :
  select_filters_tab larder 1 1 true (start (session_with pancakes)) =
  (Ok tt,
   extend (start (session_with pancakes))
     [UiTitle "Feeling indecisive about your culinary cravings?"; UiWrite filters_intro;
      UiWrite no_match_message]
     [HttpGet (api ++ "categories.php"); HttpGet (api ++ "list.php?a=list");
      HttpGet (filter_request larder (selectbox (VStr "All" :: [VStr "Soup"]) 1)
                                     (selectbox (VStr "All" :: [VStr "French"]) 1))]).
Proof.
  apply (filter_tab_without_results larder 1 1 [VStr "Soup"] [VStr "French"]
           [("meals", VNone)] "" VNone); try reflexivity.
  now left.
Defined.
